(** * RAGMaster ingestion pipeline: [PrepareVectorDB]

    A shallow embedding of
    [RAGMaster/src/langchain/langchain_utils/langchain_index_utils.py].

    The class is glue code: it sequences calls into a PDF loader, a text
    splitter, an embedding client and a vector store.  None of these
    collaborators is part of the repository, so the embedding keeps them
    abstract: a method of the class is a program ([prog]) that issues
    library calls ([call]); a [handler] answers each call, either with a
    value or with an exception, and may change the state of the outside
    world while doing so.  Running a program against a handler yields the
    result, the final world and the trace of what the program did.

    Theorems quantify over every handler, so they hold whatever the
    libraries do; where a property needs a library to behave in a certain
    way, that behaviour is an explicit hypothesis.  The module-level
    statements of the file (reading the OpenAI credentials from the
    environment and printing them) are not part of the class and are not
    modelled. *)

From Stdlib Require Import ZArith List String Ascii Bool Lia.
Import ListNotations.
Local Open Scope string_scope.
Local Open Scope Z_scope.

(** ** Values *)

(** The opaque objects of the libraries: a page-level [Document], the
    splitter, embedding-client and vector-store objects, and the
    exceptions the libraries raise. *)
Class Backend : Type := {
  Document : Type;
  TextSplitter : Type;
  Embeddings : Type;
  Chroma : Type;
  LibError : Type
}.

(** The Python values [data_directory] may hold.  The signature says
    [str], the docstring [str or List[str]]; nothing is checked, so other
    values get through as well. *)
Inductive pyval : Type :=
| PyNone
| PyInt (z : Z)
| PyStr (s : string)
| PyTuple (items : list string)
| PyList (items : list string).

(** [isinstance(v, list)] *)
Definition isinstance_list (v : pyval) : bool :=
  match v with
  | PyList _ => true
  | _ => false
  end.

(** The items a [for] loop over [v] visits when [v] is a list. *)
Definition list_items (v : pyval) : list string :=
  match v with
  | PyList items => items
  | _ => []
  end.

(** An argument of [print]. *)
Inductive pyarg : Type :=
| AStr (s : string)
| AInt (z : Z).

Definition newline : string := String (ascii_of_nat 10) EmptyString.

(** Exceptions a method can end with: [AttributeError], raised by Python
    itself when an attribute of [self] was never assigned, and whatever a
    library raised. *)
Inductive exn `{Backend} : Type :=
| AttributeError (attr : string)
| LibraryError (e : LibError).

(** ** Library calls *)

Inductive call `{Backend} : Type -> Type :=
| RecursiveCharacterTextSplitter
    (chunk_size chunk_overlap : Z) (separators : list string) : call TextSplitter
| TokenTextSplitter (chunk_size chunk_overlap : Z) : call TextSplitter
| OpenAIEmbeddings (model : string) : call Embeddings
| os_listdir (path : pyval) : call (list string)
| os_path_join (a : pyval) (b : string) : call string
| PyPDFLoader_load (file_path : string) : call (list Document)
| split_documents (s : TextSplitter) (docs : list Document) : call (list Document)
| Chroma_from_documents
    (documents : list Document) (e : Embeddings) (persist_directory : string)
  : call Chroma
| collection_count (v : Chroma) : call Z.

(** ** Programs *)

Inductive prog `{Backend} (A : Type) : Type :=
| Ret (a : A)
| Raise (e : exn)
| Print (line : list pyarg) (k : prog A)
| Call (X : Type) (c : call X) (k : X -> prog A).

Arguments Ret {_ A} a.
Arguments Raise {_ A} e.
Arguments Print {_ A} line k.
Arguments Call {_ A X} c k.

Fixpoint bind `{Backend} {A B : Type} (p : prog A) (f : A -> prog B) : prog B :=
  match p with
  | Ret a => f a
  | Raise e => Raise e
  | Print line k => Print line (bind k f)
  | Call c k => Call c (fun x => bind (k x) f)
  end.

Definition call_ `{Backend} {X : Type} (c : call X) : prog X := Call c Ret.
Definition print `{Backend} (line : list pyarg) : prog unit := Print line (Ret tt).

(** Reading an attribute of [self] that may never have been assigned. *)
Definition getattr `{Backend} {A : Type} (attr : string) (v : option A) : prog A :=
  match v with
  | Some a => Ret a
  | None => Raise (AttributeError attr)
  end.

Declare Scope prog_scope.
Delimit Scope prog_scope with prog.
Notation "x <- p ;; q" := (bind p (fun x => q))
  (at level 100, p at next level, right associativity) : prog_scope.
Notation "' pat <- p ;; q" := (bind p (fun x => match x with pat => q end))
  (at level 100, pat pattern, p at next level, right associativity) : prog_scope.
Notation "p ;; q" := (bind p (fun _ => q))
  (at level 100, right associativity) : prog_scope.
Local Open Scope prog_scope.

(** ** Running a program *)

(** What a run leaves behind: the lines printed and the library calls
    made, each with its answer, in the order they happened. *)
Inductive event `{Backend} : Type :=
| Printed (line : list pyarg)
| Called (X : Type) (c : call X) (r : LibError + X).

Arguments Called {_ X} c r.

Definition handler `{Backend} (W : Type) : Type :=
  forall X : Type, call X -> W -> (LibError + X) * W.

Record outcome `{Backend} (W A : Type) : Type := Outcome {
  result : exn + A;
  world : W;
  trace : list event
}.

Arguments Outcome {_ W A} result world trace.
Arguments result {_ W A} o.
Arguments world {_ W A} o.
Arguments trace {_ W A} o.

Definition logged `{Backend} {W A : Type} (ev : event) (o : outcome W A) : outcome W A :=
  Outcome (result o) (world o) (ev :: trace o).

Fixpoint run `{Backend} {W A : Type} (h : handler W) (p : prog A) (w : W)
  : outcome W A :=
  match p with
  | Ret a => Outcome (inr a) w []
  | Raise e => Outcome (inl e) w []
  | Print line k => logged (Printed line) (run h k w)
  | Call c k =>
      match h _ c w with
      | (inl e, w') => Outcome (inl (LibraryError e)) w' [Called c (inl e)]
      | (inr x, w') => logged (Called c (inr x)) (run h (k x) w')
      end
  end.

(** ** The class *)

Record PrepareVectorDB `{Backend} : Type := {
  embedding_model_engine : string;
  splitter_type : string;
  text_splitter : option TextSplitter;
  persist_directory : option string;
  data_directory : pyval;
  embedding : Embeddings
}.

Section Methods.
Context `{Backend}.

Definition len {A : Type} (l : list A) : Z := Z.of_nat (List.length l).

(** [PrepareVectorDB.__init__] *)
Definition __init__
    (data_directory : pyval)
    (token_vector_db_save_dir recursive_vector_db_save_dir : string)
    (embedding_model_engine : string)
    (chunk_size chunk_overlap token_chunk_size token_chunk_overlap : Z)
    (splitter_type : string) : prog PrepareVectorDB :=
  print [AStr ("Splitter type: " ++ splitter_type)] ;;
  '(text_splitter, persist_directory) <-
    (if String.eqb splitter_type "recursive" then
       s <- call_ (RecursiveCharacterTextSplitter chunk_size chunk_overlap
                     [newline ++ newline; newline; " "; EmptyString]) ;;
       Ret (Some s, Some recursive_vector_db_save_dir)
     else if String.eqb splitter_type "token" then
       s <- call_ (TokenTextSplitter token_chunk_size token_chunk_overlap) ;;
       Ret (Some s, Some token_vector_db_save_dir)
     else Ret (None, None)) ;;
  emb <- call_ (OpenAIEmbeddings embedding_model_engine) ;;
  Ret {| embedding_model_engine := embedding_model_engine;
         splitter_type := splitter_type;
         text_splitter := text_splitter;
         persist_directory := persist_directory;
         data_directory := data_directory;
         embedding := emb |}.

(** The loop of the list branch of [__load_all_documents]:
    [docs.extend(PyPDFLoader(doc_dir).load()); doc_counter += 1]. *)
Fixpoint load_uploaded (paths : list string) (docs : list Document) (doc_counter : Z)
  : prog (list Document * Z) :=
  match paths with
  | [] => Ret (docs, doc_counter)
  | doc_dir :: rest =>
      pages <- call_ (PyPDFLoader_load doc_dir) ;;
      load_uploaded rest (docs ++ pages) (doc_counter + 1)
  end.

(** The loop of the directory branch:
    [docs.extend(PyPDFLoader(os.path.join(self.data_directory, doc_name)).load())]. *)
Fixpoint load_listed (dir : pyval) (document_list : list string)
    (docs : list Document) (doc_counter : Z) : prog (list Document * Z) :=
  match document_list with
  | [] => Ret (docs, doc_counter)
  | doc_name :: rest =>
      path <- call_ (os_path_join dir doc_name) ;;
      pages <- call_ (PyPDFLoader_load path) ;;
      load_listed dir rest (docs ++ pages) (doc_counter + 1)
  end.

(** [PrepareVectorDB.__load_all_documents] *)
Definition __load_all_documents (self : PrepareVectorDB) : prog (list Document) :=
  let doc_counter := 0 in
  if isinstance_list (data_directory self) then
    print [AStr "Loading the uploaded documents..."] ;;
    '(docs, doc_counter) <-
      load_uploaded (list_items (data_directory self)) [] doc_counter ;;
    print [AStr "Number of loaded documents:"; AInt doc_counter] ;;
    print [AStr "Number of pages:"; AInt (len docs); AStr (newline ++ newline)] ;;
    Ret docs
  else
    print [AStr "Loading documents manually..."] ;;
    document_list <- call_ (os_listdir (data_directory self)) ;;
    '(docs, doc_counter) <-
      load_listed (data_directory self) document_list [] doc_counter ;;
    print [AStr "Number of loaded documents:"; AInt doc_counter] ;;
    print [AStr "Number of pages:"; AInt (len docs); AStr (newline ++ newline)] ;;
    Ret docs.

(** [PrepareVectorDB.__chunk_documents] *)
Definition __chunk_documents (self : PrepareVectorDB) (docs : list Document)
  : prog (list Document) :=
  print [AStr "Chunking documents..."] ;;
  s <- getattr "text_splitter" (text_splitter self) ;;
  chunked_documents <- call_ (split_documents s docs) ;;
  print [AStr "Number of chunks:"; AInt (len chunked_documents);
         AStr (newline ++ newline)] ;;
  Ret chunked_documents.

(** [PrepareVectorDB.prepare_and_save_vectordb] *)
Definition prepare_and_save_vectordb (self : PrepareVectorDB) : prog Chroma :=
  docs <- __load_all_documents self ;;
  chunked_documents <- __chunk_documents self docs ;;
  print [AStr "Preparing vectordb..."] ;;
  dir <- getattr "persist_directory" (persist_directory self) ;;
  db <- call_ (Chroma_from_documents chunked_documents (embedding self) dir) ;;
  print [AStr "VectorDB is created and saved."] ;;
  n <- call_ (collection_count db) ;;
  print [AStr "Number of vectors in vectordb:"; AInt n; AStr (newline ++ newline)] ;;
  Ret db.

End Methods.

(** ** Reading a trace *)

(** The stage of the pipeline a library call belongs to. *)
Inductive stage : Type := Construct | Load | Chunk | Store.

Definition stage_of `{Backend} {X : Type} (c : call X) : stage :=
  match c with
  | RecursiveCharacterTextSplitter _ _ _ => Construct
  | TokenTextSplitter _ _ => Construct
  | OpenAIEmbeddings _ => Construct
  | os_listdir _ => Load
  | os_path_join _ _ => Load
  | PyPDFLoader_load _ => Load
  | split_documents _ _ => Chunk
  | Chroma_from_documents _ _ _ => Store
  | collection_count _ => Store
  end.

Section Traces.
Context `{Backend}.

Definition ev_stage (ev : event) : option stage :=
  match ev with
  | Printed _ => None
  | Called c _ => Some (stage_of c)
  end.

(** The exception a call was answered with, if it was. *)
Definition failure (ev : event) : option LibError :=
  match ev with
  | Called _ (inl e) => Some e
  | _ => None
  end.

Definition printed_line (ev : event) : option (list pyarg) :=
  match ev with
  | Printed line => Some line
  | Called _ _ => None
  end.

Definition listing (ev : event) : option (pyval * (LibError + list string)) :=
  match ev with
  | Printed _ => None
  | Called c r =>
      match c in call X return LibError + X -> _ with
      | os_listdir path => fun r => Some (path, r)
      | _ => fun _ => None
      end r
  end.

Definition joining (ev : event) : option (pyval * string * (LibError + string)) :=
  match ev with
  | Printed _ => None
  | Called c r =>
      match c in call X return LibError + X -> _ with
      | os_path_join a b => fun r => Some (a, b, r)
      | _ => fun _ => None
      end r
  end.

Definition loading (ev : event) : option (string * (LibError + list Document)) :=
  match ev with
  | Printed _ => None
  | Called c r =>
      match c in call X return LibError + X -> _ with
      | PyPDFLoader_load file_path => fun r => Some (file_path, r)
      | _ => fun _ => None
      end r
  end.

Definition chunking (ev : event)
  : option (TextSplitter * list Document * (LibError + list Document)) :=
  match ev with
  | Printed _ => None
  | Called c r =>
      match c in call X return LibError + X -> _ with
      | split_documents s docs => fun r => Some (s, docs, r)
      | _ => fun _ => None
      end r
  end.

(** A write to a persistence directory: the only call that is handed
    one is [Chroma.from_documents]. *)
Definition index_write (ev : event)
  : option (list Document * Embeddings * string * (LibError + Chroma)) :=
  match ev with
  | Printed _ => None
  | Called c r =>
      match c in call X return LibError + X -> _ with
      | Chroma_from_documents docs e dir => fun r => Some (docs, e, dir, r)
      | _ => fun _ => None
      end r
  end.

Definition counting (ev : event) : option (Chroma * (LibError + Z)) :=
  match ev with
  | Printed _ => None
  | Called c r =>
      match c in call X return LibError + X -> _ with
      | collection_count v => fun r => Some (v, r)
      | _ => fun _ => None
      end r
  end.

(** The events of one kind, in trace order. *)
Fixpoint collect {B : Type} (f : event -> option B) (tr : list event) : list B :=
  match tr with
  | [] => []
  | ev :: rest =>
      match f ev with
      | Some b => b :: collect f rest
      | None => collect f rest
      end
  end.

Definition printed := collect printed_line.
Definition listings := collect listing.
Definition joins := collect joining.
Definition loads := collect loading.
Definition chunkings := collect chunking.
Definition index_writes := collect index_write.
Definition counts := collect counting.

(** All calls of the trace belong to stages for which [S] holds. *)
Definition stages_in (S : stage -> bool) (tr : list event) : Prop :=
  Forall (fun ev => match ev_stage ev with
                    | Some st => S st = true
                    | None => True
                    end) tr.

(** The same, read off the program text. *)
Fixpoint within {A : Type} (S : stage -> bool) (p : prog A) : Prop :=
  match p with
  | Ret _ => True
  | Raise _ => True
  | Print _ k => within S k
  | Call c k => S (stage_of c) = true /\ forall x, within S (k x)
  end.

End Traces.

(** ** Vocabulary of the properties *)

Definition is_construct (st : stage) : bool :=
  match st with Construct => true | _ => false end.

Definition is_load (st : stage) : bool :=
  match st with Load => true | _ => false end.

Definition is_store (st : stage) : bool :=
  match st with Store => true | _ => false end.

Definition after_loading (st : stage) : bool :=
  match st with Chunk | Store => true | _ => false end.

Section Vocabulary.
Context `{Backend}.

(** The statements of [prepare_and_save_vectordb] that follow the load. *)
Definition after_load (self : PrepareVectorDB) (docs : list Document) : prog Chroma :=
  chunked_documents <- __chunk_documents self docs ;;
  print [AStr "Preparing vectordb..."] ;;
  dir <- getattr "persist_directory" (persist_directory self) ;;
  db <- call_ (Chroma_from_documents chunked_documents (embedding self) dir) ;;
  print [AStr "VectorDB is created and saved."] ;;
  n <- call_ (collection_count db) ;;
  print [AStr "Number of vectors in vectordb:"; AInt n; AStr (newline ++ newline)] ;;
  Ret db.

(** The splitter a constructor call asks for: policy, size, overlap. *)
Definition splitter_built (ev : event) : option (string * Z * Z) :=
  match ev with
  | Printed _ => None
  | Called c _ =>
      match c with
      | RecursiveCharacterTextSplitter size overlap _ => Some ("recursive", size, overlap)
      | TokenTextSplitter size overlap => Some ("token", size, overlap)
      | _ => None
      end
  end.

(** The paths the joins of a trace produced. *)
Definition joined (js : list (pyval * string * (LibError + string))) : list string :=
  flat_map (fun j => match snd j with inr path => [path] | inl _ => [] end) js.

(** The load events of files that all loaded: path and pages. *)
Definition as_loads (files : list (string * list Document))
  : list (string * (LibError + list Document)) :=
  map (fun f => (fst f, inr (snd f))) files.

(** The join events that turn the listed [names] into [paths]. *)
Definition as_joins (dir : pyval) (names paths : list string)
  : list (pyval * string * (LibError + string)) :=
  map (fun np => (dir, fst np, inr (snd np))) (combine names paths).

Definition pages_total (files : list (string * list Document)) : nat :=
  list_sum (map (fun f => List.length (snd f)) files).

(** *** What the properties ask of the libraries *)

(** The splitter is a function of its input: its answer does not depend
    on the state of the world. *)
Definition pure_splitter {W : Type} (h : handler W) : Prop :=
  forall s docs w1 w2,
    fst (h _ (split_documents s docs) w1) = fst (h _ (split_documents s docs) w2).

(** The vector store, with respect to a notion [fresh w dir] of "no
    index is persisted under [dir] in world [w]": only the store writes
    there, and an index built in a fresh directory counts one entry per
    document it was given. *)
Record index_contract {W : Type} (h : handler W) (fresh : W -> string -> Prop)
  : Prop := {
  fresh_kept : forall (X : Type) (c : call X) w dir,
    is_store (stage_of c) = false -> fresh w dir -> fresh (snd (h _ c w)) dir;
  fresh_count : forall docs e dir w v w',
    fresh w dir ->
    h _ (Chroma_from_documents docs e dir) w = (inr v, w') ->
    fst (h _ (collection_count v) w') = inr (len docs)
}.

(** The configured source holds no file: an empty list of paths, or a
    directory whose listing is empty. *)
Definition empty_source {W : Type} (h : handler W) (w : W) (self : PrepareVectorDB)
  : Prop :=
  if isinstance_list (data_directory self)
  then list_items (data_directory self) = []
  else fst (h _ (os_listdir (data_directory self)) w) = inr [].

(** The splitter makes nothing of nothing. *)
Definition splits_nothing {W : Type} (h : handler W) (s : TextSplitter) : Prop :=
  forall w, fst (h _ (split_documents s []) w) = inr [].

End Vocabulary.

(** The configurations section 7 of the specification calls valid: a
    known policy whose size and overlap are positive, the overlap below
    the size. *)
Definition spec_valid_configuration
    (chunk_size chunk_overlap token_chunk_size token_chunk_overlap : Z)
    (splitter_type : string) : bool :=
  if String.eqb splitter_type "recursive" then
    (0 <? chunk_size) && (0 <? chunk_overlap) && (chunk_overlap <? chunk_size)
  else if String.eqb splitter_type "token" then
    (0 <? token_chunk_size) && (0 <? token_chunk_overlap)
    && (token_chunk_overlap <? token_chunk_size)
  else false.

(** ** Vocabulary of the further properties *)

Definition is_chunk (st : stage) : bool :=
  match st with Chunk => true | _ => false end.

Section FurtherVocabulary.
Context `{Backend}.

(** A program with no [raise] of its own: it ends with an exception only
    if a library call does. *)
Fixpoint never_raises {A : Type} (p : prog A) : Prop :=
  match p with
  | Ret _ => True
  | Raise _ => False
  | Print _ k => never_raises k
  | Call _ k => forall x, never_raises (k x)
  end.

(** The splitter object a constructor call returned: policy, size,
    overlap, object. *)
Definition splitter_made (ev : event) : option (string * Z * Z * TextSplitter) :=
  match ev with
  | Printed _ => None
  | Called c r =>
      match c in call X return LibError + X -> _ with
      | RecursiveCharacterTextSplitter size overlap _ => fun r =>
          match r with
          | inr s => Some ("recursive", size, overlap, s)
          | inl _ => None
          end
      | TokenTextSplitter size overlap => fun r =>
          match r with
          | inr s => Some ("token", size, overlap, s)
          | inl _ => None
          end
      | _ => fun _ => None
      end r
  end.

(** The embedding client a constructor call returned, with its model. *)
Definition embeddings_made (ev : event) : option (string * Embeddings) :=
  match ev with
  | Printed _ => None
  | Called c r =>
      match c in call X return LibError + X -> _ with
      | OpenAIEmbeddings model => fun r =>
          match r with
          | inr emb => Some (model, emb)
          | inl _ => None
          end
      | _ => fun _ => None
      end r
  end.

(** The model a call of the embedding client's constructor names. *)
Definition embeddings_built (ev : event) : option string :=
  match ev with
  | Printed _ => None
  | Called c _ =>
      match c with
      | OpenAIEmbeddings model => Some model
      | _ => None
      end
  end.

(** The first line [__load_all_documents] prints. *)
Definition load_banner (self : PrepareVectorDB) : string :=
  if isinstance_list (data_directory self)
  then "Loading the uploaded documents..."
  else "Loading documents manually...".

(** The three lines of a load that returns: [files] documents loaded,
    [pages] pages. *)
Definition load_log (self : PrepareVectorDB) (files pages : Z) : list (list pyarg) :=
  [ [AStr (load_banner self)];
    [AStr "Number of loaded documents:"; AInt files];
    [AStr "Number of pages:"; AInt pages; AStr (newline ++ newline)] ].

(** The five lines that follow when the rest returns as well. *)
Definition store_log (chunks vectors : Z) : list (list pyarg) :=
  [ [AStr "Chunking documents..."];
    [AStr "Number of chunks:"; AInt chunks; AStr (newline ++ newline)];
    [AStr "Preparing vectordb..."];
    [AStr "VectorDB is created and saved."];
    [AStr "Number of vectors in vectordb:"; AInt vectors; AStr (newline ++ newline)] ].

(** Two runs of [prepare_and_save_vectordb] on the same object, one
    after the other. *)
Definition prepare_twice (self : PrepareVectorDB) : prog Chroma :=
  _ <- prepare_and_save_vectordb self ;;
  prepare_and_save_vectordb self.

End FurtherVocabulary.

(** ** A reference backend

    Small stand-ins for the libraries, used to run the class on concrete
    inputs: an in-memory file system, a splitter that cuts a page into
    pieces of at most [chunk_size] characters, and a vector store that
    keeps one entry per document under its persistence directory,
    appends to what the directory already holds and, as Chroma does,
    refuses an empty batch. *)
Module Ref.

Record page_doc : Type := {
  page_content : string;
  source : string;
  page : Z
}.

Inductive splitter_obj : Type :=
| CharSplitter (size overlap : Z) (separators : list string)
| TokSplitter (size overlap : Z).

Inductive error : Type :=
| ValueError (msg : string)
| TypeError
| FileNotFoundError (path : string)
| DocumentLoadError (path : string)
| PdfStreamError (msg : string).

#[global] Instance backend : Backend := {|
  Document := page_doc;
  TextSplitter := splitter_obj;
  Embeddings := string;
  Chroma := string;
  LibError := error
|}.

(** A file is a PDF with the text of its pages, or ([None]) something
    the loader cannot parse. *)
Record World : Type := {
  files : list (string * option (list string));
  dirs : list (string * list string);
  stores : list (string * list page_doc)
}.

Fixpoint assoc {V : Type} (k : string) (l : list (string * V)) : option V :=
  match l with
  | [] => None
  | (k', v) :: rest => if String.eqb k k' then Some v else assoc k rest
  end.

Fixpoint number_pages (path : string) (n : Z) (texts : list string) : list page_doc :=
  match texts with
  | [] => []
  | t :: rest =>
      {| page_content := t; source := path; page := n |}
        :: number_pages path (n + 1) rest
  end.

Fixpoint chop (n : nat) (cur : string) (room : nat) (s : string) : list string :=
  match s with
  | EmptyString => match cur with EmptyString => [] | _ => [cur] end
  | String c rest =>
      match room with
      | O => cur :: chop n (String c EmptyString) (n - 1) rest
      | S r => chop n (cur ++ String c EmptyString) r rest
      end
  end.

Definition size_of (s : splitter_obj) : Z :=
  match s with
  | CharSplitter size _ _ => size
  | TokSplitter size _ => size
  end.

Definition split_page (s : splitter_obj) (d : page_doc) : list page_doc :=
  let n := Z.to_nat (Z.max 1 (size_of s)) in
  map (fun t => {| page_content := t; source := source d; page := page d |})
      (chop n EmptyString n (page_content d)).

Definition stored (w : World) (dir : string) : list page_doc :=
  match assoc dir (stores w) with
  | Some entries => entries
  | None => []
  end.

Definition new_splitter (s : splitter_obj) (size overlap : Z) : error + splitter_obj :=
  if overlap >? size then inl (ValueError "chunk overlap larger than chunk size")
  else inr s.

Definition handle : handler World := fun X c =>
  match c in call X return World -> (error + X) * World with
  | RecursiveCharacterTextSplitter size overlap separators => fun w =>
      (new_splitter (CharSplitter size overlap separators) size overlap, w)
  | TokenTextSplitter size overlap => fun w =>
      (new_splitter (TokSplitter size overlap) size overlap, w)
  | OpenAIEmbeddings model => fun w => (inr model, w)
  | os_listdir path => fun w =>
      (match path with
       | PyStr d =>
           match assoc d (dirs w) with
           | Some names => inr names
           | None => inl (FileNotFoundError d)
           end
       | _ => inl TypeError
       end, w)
  | os_path_join a b => fun w =>
      (match a with
       | PyStr d => inr (d ++ "/" ++ b)
       | _ => inl TypeError
       end, w)
  | PyPDFLoader_load file_path => fun w =>
      (match assoc file_path (files w) with
       | Some (Some texts) => inr (number_pages file_path 0 texts)
       | Some None => inl (DocumentLoadError file_path)
       | None => inl (FileNotFoundError file_path)
       end, w)
  | split_documents s docs => fun w => (inr (flat_map (split_page s) docs), w)
  | Chroma_from_documents docs e dir => fun w =>
      match docs with
      | [] => (inl (ValueError "Expected IDs to be a non-empty list"), w)
      | _ :: _ =>
          (inr dir,
           {| files := files w; dirs := dirs w;
              stores := (dir, (stored w dir ++ docs)%list) :: stores w |})
      end
  | collection_count v => fun w => (inr (len (stored w v)), w)
  end.

(** No index was persisted under [dir] yet. *)
Definition fresh (w : World) (dir : string) : Prop := stored w dir = [].

(** The same backend with a loader that reports a broken file the way
    pypdf does: by what is wrong with the stream, without the file's
    name. *)
Definition pypdf_handle : handler World := fun X c =>
  match c in call X return World -> (error + X) * World with
  | PyPDFLoader_load file_path => fun w =>
      match handle _ (PyPDFLoader_load file_path) w with
      | (inl (DocumentLoadError _), w') =>
          (inl (PdfStreamError "Stream has ended unexpectedly"), w')
      | answer => answer
      end
  | c' => handle _ c'
  end.

(** What the specification asks of a load error: a [DocumentLoadError]
    that names the file. *)
Definition identifies (e : error) (path : string) : bool :=
  match e with
  | DocumentLoadError p => String.eqb p path
  | _ => false
  end.

(** A disk with two PDFs in [data], and a copy of the directory into
    which a file that is no PDF was dropped. *)
Definition disk : World := {|
  files := [ ("data/a.pdf", Some ["alpha beta gamma"; "delta"]);
             ("data/b.pdf", Some ["one"; "two"; "three"]);
             ("mixed/a.pdf", Some ["alpha beta gamma"; "delta"]);
             ("mixed/notes.txt", None);
             ("mixed/b.pdf", Some ["one"; "two"; "three"]) ];
  dirs := [ ("data", ["b.pdf"; "a.pdf"]);
            ("mixed", ["a.pdf"; "notes.txt"; "b.pdf"]);
            ("empty", []) ];
  stores := []
|}.

(** A pipeline object as [__init__] leaves it. *)
Definition pipeline (data : pyval) (policy : string) : prog PrepareVectorDB :=
  __init__ data "db/token" "db/recursive" "text-embedding-ada-002" 8 2 4 1 policy.

(** The object [pipeline data "recursive"] returns. *)
Definition recursive_pipeline (data : pyval) : PrepareVectorDB := {|
  embedding_model_engine := "text-embedding-ada-002";
  splitter_type := "recursive";
  text_splitter :=
    Some (CharSplitter 8 2 [newline ++ newline; newline; " "; EmptyString]);
  persist_directory := Some "db/recursive";
  data_directory := data;
  embedding := "text-embedding-ada-002"
|}.

(** The object [pipeline data "token"] returns. *)
Definition token_pipeline (data : pyval) : PrepareVectorDB := {|
  embedding_model_engine := "text-embedding-ada-002";
  splitter_type := "token";
  text_splitter := Some (TokSplitter 4 1);
  persist_directory := Some "db/token";
  data_directory := data;
  embedding := "text-embedding-ada-002"
|}.

(** The pages of [data], in the order of its listing. *)
Definition data_pages : list page_doc :=
  (number_pages "data/b.pdf" 0 ["one"; "two"; "three"]
   ++ number_pages "data/a.pdf" 0 ["alpha beta gamma"; "delta"])%list.

(** The disk after an index was persisted under [db/recursive]. *)
Definition used_disk : World := {|
  files := files disk;
  dirs := dirs disk;
  stores := [("db/recursive", data_pages)]
|}.

(** An upload of three paths, the second of which is no PDF. *)
Definition mixed_upload : pyval :=
  PyList ["mixed/b.pdf"; "mixed/notes.txt"; "mixed/a.pdf"].

(** The run that meets the file that is no PDF. *)
Definition mixed_run : outcome World Chroma :=
  run handle (prepare_and_save_vectordb (recursive_pipeline (PyStr "mixed"))) disk.

End Ref.

(** * Facts about running programs *)

Section RunFacts.
Context `{Backend} {W : Type} (h : handler W).

Lemma run_bind {A B : Type} (p : prog A) (f : A -> prog B) (w : W) :
  run h (bind p f) w =
  match result (run h p w) with
  | inl e => Outcome (inl e) (world (run h p w)) (trace (run h p w))
  | inr a =>
      let o := run h (f a) (world (run h p w)) in
      Outcome (result o) (world o) (trace (run h p w) ++ trace o)
  end.
Proof.
  revert w; induction p as [a | e | line k IH | X c k IH]; intros w; simpl.
  - destruct (run h (f a) w); reflexivity.
  - reflexivity.
  - rewrite IH. destruct (result (run h k w)); reflexivity.
  - destruct (h _ c w) as [[e | x] w']; simpl; [reflexivity |].
    rewrite IH. destruct (result (run h (k x) w')); reflexivity.
Qed.

Lemma run_bind_return {A B : Type} (p : prog A) (f : A -> prog B) (w : W) a :
  result (run h p w) = inr a ->
  run h (bind p f) w =
  Outcome (result (run h (f a) (world (run h p w))))
          (world (run h (f a) (world (run h p w))))
          (trace (run h p w) ++ trace (run h (f a) (world (run h p w)))).
Proof. intros E. rewrite run_bind, E. reflexivity. Qed.

Lemma collect_app {B : Type} (f : event -> option B) (t1 t2 : list event) :
  collect f (t1 ++ t2) = (collect f t1 ++ collect f t2)%list.
Proof.
  induction t1 as [| ev t1 IH]; simpl; [reflexivity |].
  destruct (f ev); simpl; rewrite IH; reflexivity.
Qed.

Lemma collect_In {B : Type} (f : event -> option B) (tr : list event) (b : B) :
  In b (collect f tr) ->
  exists t1 ev t2, tr = (t1 ++ ev :: t2)%list /\ f ev = Some b.
Proof.
  induction tr as [| ev tr IH]; simpl; [intros [] |].
  destruct (f ev) as [b' |] eqn:E.
  - intros [-> | I].
    + exists [], ev, tr. split; [reflexivity | exact E].
    + destruct (IH I) as (t1 & ev' & t2 & -> & E').
      exists (ev :: t1), ev', t2. split; [reflexivity | exact E'].
  - intros I. destruct (IH I) as (t1 & ev' & t2 & -> & E').
    exists (ev :: t1), ev', t2. split; [reflexivity | exact E'].
Qed.

Lemma collect_none {B : Type} (f : event -> option B) (P : event -> Prop) tr :
  (forall ev, P ev -> f ev = None) -> Forall P tr -> collect f tr = [].
Proof.
  intros HP F. induction F as [| ev tr Pev _ IH]; simpl; [reflexivity |].
  rewrite (HP _ Pev). exact IH.
Qed.

(** ** Stages *)

Lemma within_run {A : Type} (S : stage -> bool) (p : prog A) (w : W) :
  within S p -> stages_in S (trace (run h p w)).
Proof.
  revert w; induction p as [a | e | line k IH | X c k IH]; intros w; simpl.
  - constructor.
  - constructor.
  - intros Hk. constructor; [exact I | apply IH, Hk].
  - intros [Hc Hk]. destruct (h _ c w) as [[e | x] w']; simpl.
    + constructor; [exact Hc | constructor].
    + constructor; [exact Hc | apply IH, Hk].
Qed.

Lemma within_bind {A B : Type} (S : stage -> bool) (p : prog A) (f : A -> prog B) :
  within S p -> (forall a, within S (f a)) -> within S (bind p f).
Proof.
  intros Hp Hf. induction p as [a | e | line k IH | X c k IH]; simpl in *.
  - apply Hf.
  - exact I.
  - apply IH, Hp.
  - destruct Hp as [Hc Hk]. split; [exact Hc | intros x; apply IH, Hk].
Qed.

Lemma stages_in_collect {B : Type} (S : stage -> bool) (f : event -> option B) tr :
  (forall ev, f ev <> None -> exists st, ev_stage ev = Some st /\ S st = false) ->
  stages_in S tr -> collect f tr = [].
Proof.
  intros Hf. apply collect_none. intros ev Hev.
  destruct (f ev) eqn:E; [| reflexivity].
  destruct (Hf ev) as (st & E1 & E2); [congruence |].
  rewrite E1 in Hev. congruence.
Qed.

(** ** Exceptions *)

(** A call that is answered with an exception ends the run: it is the
    last event of the trace, and its exception is the result. *)
Lemma failure_is_final {A : Type} (p : prog A) (w : W) t1 ev t2 e :
  trace (run h p w) = (t1 ++ ev :: t2)%list ->
  failure ev = Some e ->
  t2 = [] /\ result (run h p w) = inl (LibraryError e).
Proof.
  revert w t1; induction p as [a | e0 | line k IH | X c k IH]; intros w t1; simpl.
  - destruct t1; discriminate.
  - destruct t1; discriminate.
  - destruct t1 as [| ev1 t1]; simpl; intros E F.
    + injection E as <- _. discriminate.
    + injection E as _ E. eapply IH; eassumption.
  - destruct (h _ c w) as [[e0 | x] w']; simpl.
    + destruct t1 as [| ev1 t1]; simpl; intros E F.
      * injection E as <- <-. simpl in F. injection F as ->. split; reflexivity.
      * injection E as _ E. destruct t1; discriminate.
    + destruct t1 as [| ev1 t1]; simpl; intros E F.
      * injection E as <- _. discriminate.
      * injection E as _ E. eapply IH; eassumption.
Qed.

Lemma return_no_failure {A : Type} (p : prog A) (w : W) a :
  result (run h p w) = inr a -> collect failure (trace (run h p w)) = [].
Proof.
  intros R. destruct (collect failure (trace (run h p w))) as [| e l] eqn:E;
    [reflexivity |].
  destruct (collect_In failure (trace (run h p w)) e) as (t1 & ev & t2 & Et & F).
  - rewrite E. left. reflexivity.
  - destruct (failure_is_final p w t1 ev t2 e Et F) as [_ R']. congruence.
Qed.

End RunFacts.

(** * The stages of the pipeline *)

Section StageFacts.
Context `{Backend} {W : Type} (h : handler W).

Lemma loading_failure ev path e :
  loading ev = Some (path, inl e) -> failure ev = Some e.
Proof.
  destruct ev as [line | X c r]; simpl; [discriminate |].
  destruct c; try discriminate.
  destruct r; intros E; injection E as _ E; congruence.
Qed.

Lemma load_uploaded_within paths docs n : within is_load (load_uploaded paths docs n).
Proof.
  revert docs n; induction paths as [| p paths IH]; intros docs n; simpl.
  - exact I.
  - split; [reflexivity | intros pages; apply IH].
Qed.

Lemma load_listed_within dir names docs n : within is_load (load_listed dir names docs n).
Proof.
  revert docs n; induction names as [| name names IH]; intros docs n; simpl.
  - exact I.
  - split; [reflexivity | intros path].
    split; [reflexivity | intros pages; apply IH].
Qed.

Lemma load_all_within self : within is_load (__load_all_documents self).
Proof.
  unfold __load_all_documents.
  destruct (isinstance_list (data_directory self)); simpl.
  - apply within_bind; [apply load_uploaded_within |].
    intros [docs n]; simpl. exact I.
  - split; [reflexivity | intros names].
    apply within_bind; [apply load_listed_within |].
    intros [docs n]; simpl. exact I.
Qed.

Lemma after_load_within self docs : within after_loading (after_load self docs).
Proof.
  unfold after_load, __chunk_documents.
  destruct (text_splitter self) as [s |]; simpl; [| exact I].
  split; [reflexivity | intros chunks].
  destruct (persist_directory self) as [dir |]; simpl; [| exact I].
  split; [reflexivity | intros db].
  split; [reflexivity | intros n]. exact I.
Qed.

Lemma prepare_unfold self :
  prepare_and_save_vectordb self = bind (__load_all_documents self) (after_load self).
Proof. reflexivity. Qed.

(** ** The two loops *)

Lemma load_uploaded_trace paths docs n w :
  let tr := trace (run h (load_uploaded paths docs n) w) in
  listings tr = [] /\ joins tr = [] /\
  exists rest, paths = (map fst (loads tr) ++ rest)%list.
Proof.
  revert docs n w; induction paths as [| p paths IH]; intros docs n w; simpl.
  - repeat split. exists []. reflexivity.
  - destruct (h _ (PyPDFLoader_load p) w) as [[e | pages] w1]; simpl.
    + repeat split. exists paths. reflexivity.
    + destruct (IH (docs ++ pages)%list (n + 1) w1) as (L & J & rest & E).
      repeat split; [exact L | exact J |].
      exists rest. unfold loads in *. simpl. rewrite <- E. reflexivity.
Qed.

Lemma load_uploaded_return paths docs n w docs' n' :
  result (run h (load_uploaded paths docs n) w) = inr (docs', n') ->
  exists files,
    map fst files = paths /\
    loads (trace (run h (load_uploaded paths docs n) w)) = as_loads files /\
    docs' = (docs ++ List.concat (map snd files))%list /\
    n' = n + len paths.
Proof.
  revert docs n w; induction paths as [| p paths IH]; intros docs n w; simpl.
  - intros E; injection E as <- <-. exists []. simpl.
    rewrite app_nil_r, Z.add_0_r. repeat split.
  - destruct (h _ (PyPDFLoader_load p) w) as [[e | pages] w1]; simpl;
      [discriminate |].
    intros R. destruct (IH _ _ _ R) as (files & F & L & D & N).
    exists ((p, pages) :: files). simpl. repeat split.
    + rewrite F. reflexivity.
    + unfold loads in *. simpl. rewrite L. reflexivity.
    + rewrite D, <- app_assoc. reflexivity.
    + rewrite N. unfold len. simpl List.length. lia.
Qed.

Lemma load_listed_trace dir names docs n w :
  let tr := trace (run h (load_listed dir names docs n) w) in
  listings tr = [] /\
  Forall (fun j => fst (fst j) = dir) (joins tr) /\
  map fst (loads tr) = joined (joins tr) /\
  exists rest, names = (map (fun j => snd (fst j)) (joins tr) ++ rest)%list.
Proof.
  revert docs n w; induction names as [| name names IH]; intros docs n w; simpl.
  - repeat split; [constructor |]. exists []. reflexivity.
  - destruct (h _ (os_path_join dir name) w) as [[e | path] w1]; simpl.
    + repeat split; [repeat constructor |]. exists names. reflexivity.
    + destruct (h _ (PyPDFLoader_load path) w1) as [[e | pages] w2]; simpl.
      * repeat split; [repeat constructor |]. exists names. reflexivity.
      * destruct (IH (docs ++ pages)%list (n + 1) w2) as (L & J & P & rest & E).
        repeat split.
        -- exact L.
        -- constructor; [reflexivity | exact J].
        -- unfold loads, joins in *. simpl. rewrite P. reflexivity.
        -- exists rest. unfold joins in *. simpl. rewrite <- E. reflexivity.
Qed.

Lemma load_listed_return dir names docs n w docs' n' :
  result (run h (load_listed dir names docs n) w) = inr (docs', n') ->
  exists files,
    List.length files = List.length names /\
    joins (trace (run h (load_listed dir names docs n) w))
      = as_joins dir names (map fst files) /\
    loads (trace (run h (load_listed dir names docs n) w)) = as_loads files /\
    docs' = (docs ++ List.concat (map snd files))%list /\
    n' = n + len names.
Proof.
  revert docs n w; induction names as [| name names IH]; intros docs n w; simpl.
  - intros E; injection E as <- <-. exists []. simpl.
    rewrite app_nil_r, Z.add_0_r. repeat split.
  - destruct (h _ (os_path_join dir name) w) as [[e | path] w1]; simpl;
      [discriminate |].
    destruct (h _ (PyPDFLoader_load path) w1) as [[e | pages] w2]; simpl;
      [discriminate |].
    intros R. destruct (IH _ _ _ R) as (files & F & J & L & D & N).
    exists ((path, pages) :: files). simpl. repeat split.
    + rewrite F. reflexivity.
    + unfold joins, as_joins in *. simpl. rewrite J. reflexivity.
    + unfold loads in *. simpl. rewrite L. reflexivity.
    + rewrite D, <- app_assoc. reflexivity.
    + rewrite N. unfold len. simpl List.length. lia.
Qed.

End StageFacts.

(** * Loading *)

Section Loading.
Context `{Backend} {W : Type} (h : handler W).

Lemma load_all_list self w :
  isinstance_list (data_directory self) = true ->
  let o := run h (load_uploaded (list_items (data_directory self)) [] 0) w in
  run h (__load_all_documents self) w =
  match result o with
  | inl e =>
      Outcome (inl e) (world o)
        (Printed [AStr "Loading the uploaded documents..."] :: trace o)
  | inr (docs, n) =>
      Outcome (inr docs) (world o)
        (Printed [AStr "Loading the uploaded documents..."]
           :: trace o
           ++ [Printed [AStr "Number of loaded documents:"; AInt n];
               Printed [AStr "Number of pages:"; AInt (len docs);
                        AStr (newline ++ newline)]])
  end.
Proof.
  intros L. unfold __load_all_documents. rewrite L. simpl.
  rewrite run_bind.
  destruct (result (run h (load_uploaded (list_items (data_directory self)) [] 0) w))
    as [e | [docs n]]; reflexivity.
Qed.

Lemma load_all_listed self w :
  isinstance_list (data_directory self) = false ->
  run h (__load_all_documents self) w =
  match h _ (os_listdir (data_directory self)) w with
  | (inl e, w1) =>
      Outcome (inl (LibraryError e)) w1
        [Printed [AStr "Loading documents manually..."];
         Called (os_listdir (data_directory self)) (inl e)]
  | (inr names, w1) =>
      let o := run h (load_listed (data_directory self) names [] 0) w1 in
      match result o with
      | inl e =>
          Outcome (inl e) (world o)
            (Printed [AStr "Loading documents manually..."]
               :: Called (os_listdir (data_directory self)) (inr names)
               :: trace o)
      | inr (docs, n) =>
          Outcome (inr docs) (world o)
            (Printed [AStr "Loading documents manually..."]
               :: Called (os_listdir (data_directory self)) (inr names)
               :: trace o
               ++ [Printed [AStr "Number of loaded documents:"; AInt n];
                   Printed [AStr "Number of pages:"; AInt (len docs);
                            AStr (newline ++ newline)]])
      end
  end.
Proof.
  intros L. unfold __load_all_documents. rewrite L. simpl.
  destruct (h _ (os_listdir (data_directory self)) w) as [[e | names] w1];
    [reflexivity |].
  simpl. rewrite run_bind.
  destruct (result (run h (load_listed (data_directory self) names [] 0) w1))
    as [e | [docs n]]; reflexivity.
Qed.

Lemma collect_prints {B : Type} (f : event -> option B) tr lines :
  (forall line, f (Printed line) = None) ->
  collect f (tr ++ map Printed lines) = collect f tr.
Proof.
  intros P. rewrite collect_app.
  replace (collect f (map Printed lines)) with (@nil B); [apply app_nil_r |].
  induction lines as [| l lines IH]; simpl; [reflexivity |].
  rewrite P. exact IH.
Qed.

End Loading.

(** Steps over the lines printed around the loop of a load. *)
Ltac skip_prints :=
  unfold loads, listings, joins;
  cbn [collect loading listing joining];
  rewrite !collect_app;
  cbn [collect loading listing joining];
  rewrite !app_nil_r;
  fold loads; fold listings; fold joins.

(** * Chunking and storing *)

(** A projection that answers at all answers on calls of one stage. *)
Ltac project_stage :=
  simpl; intros N; first [reflexivity | exfalso; apply N; reflexivity].

Ltac no_write :=
  cbn; split; [lia | split; [discriminate | intros ? ? ? ? []]].

Section AfterLoad.
Context `{Backend} {W : Type} (h : handler W).

Lemma listing_stage ev : listing ev <> None -> ev_stage ev = Some Load.
Proof. destruct ev as [l | X c r]; simpl; [congruence |]. destruct c; project_stage. Qed.

Lemma joining_stage ev : joining ev <> None -> ev_stage ev = Some Load.
Proof. destruct ev as [l | X c r]; simpl; [congruence |]. destruct c; project_stage. Qed.

Lemma loading_stage ev : loading ev <> None -> ev_stage ev = Some Load.
Proof. destruct ev as [l | X c r]; simpl; [congruence |]. destruct c; project_stage. Qed.

Lemma chunking_stage ev : chunking ev <> None -> ev_stage ev = Some Chunk.
Proof. destruct ev as [l | X c r]; simpl; [congruence |]. destruct c; project_stage. Qed.

Lemma index_write_stage ev : index_write ev <> None -> ev_stage ev = Some Store.
Proof. destruct ev as [l | X c r]; simpl; [congruence |]. destruct c; project_stage. Qed.

Lemma counting_stage ev : counting ev <> None -> ev_stage ev = Some Store.
Proof. destruct ev as [l | X c r]; simpl; [congruence |]. destruct c; project_stage. Qed.

Lemma splitter_built_stage ev : splitter_built ev <> None -> ev_stage ev = Some Construct.
Proof. destruct ev as [l | X c r]; simpl; [congruence |]. destruct c; project_stage. Qed.

(** The load stage neither chunks nor stores. *)
Lemma load_trace_quiet self w :
  let tr := trace (run h (__load_all_documents self) w) in
  chunkings tr = [] /\ index_writes tr = [] /\ counts tr = [].
Proof.
  pose proof (within_run h is_load _ w (load_all_within self)) as S.
  cbv zeta. repeat split.
  - apply (stages_in_collect is_load); [| exact S].
    intros ev N. exists Chunk. split; [apply chunking_stage, N | reflexivity].
  - apply (stages_in_collect is_load); [| exact S].
    intros ev N. exists Store. split; [apply index_write_stage, N | reflexivity].
  - apply (stages_in_collect is_load); [| exact S].
    intros ev N. exists Store. split; [apply counting_stage, N | reflexivity].
Qed.

(** What follows the load loads nothing. *)
Lemma after_load_quiet self docs w :
  loads (trace (run h (after_load self docs) w)) = [].
Proof.
  apply (stages_in_collect after_loading).
  - intros ev N. exists Load. split; [apply loading_stage, N | reflexivity].
  - apply within_run, after_load_within.
Qed.

(** The statements after the load, run one by one. *)
Lemma after_load_run self docs w :
  run h (after_load self docs) w =
  match text_splitter self with
  | None =>
      Outcome (inl (AttributeError "text_splitter")) w
        [Printed [AStr "Chunking documents..."]]
  | Some s =>
      match h _ (split_documents s docs) w with
      | (inl e, w1) =>
          Outcome (inl (LibraryError e)) w1
            [Printed [AStr "Chunking documents..."];
             Called (split_documents s docs) (inl e)]
      | (inr chunks, w1) =>
          let chunked :=
            [Printed [AStr "Chunking documents..."];
             Called (split_documents s docs) (inr chunks);
             Printed [AStr "Number of chunks:"; AInt (len chunks);
                      AStr (newline ++ newline)];
             Printed [AStr "Preparing vectordb..."]] in
          match persist_directory self with
          | None => Outcome (inl (AttributeError "persist_directory")) w1 chunked
          | Some dir =>
              let build := Chroma_from_documents chunks (embedding self) dir in
              match h _ build w1 with
              | (inl e, w2) =>
                  Outcome (inl (LibraryError e)) w2
                    (chunked ++ [Called build (inl e)])
              | (inr db, w2) =>
                  match h _ (collection_count db) w2 with
                  | (inl e, w3) =>
                      Outcome (inl (LibraryError e)) w3
                        (chunked
                           ++ [Called build (inr db);
                               Printed [AStr "VectorDB is created and saved."];
                               Called (collection_count db) (inl e)])
                  | (inr n, w3) =>
                      Outcome (inr db) w3
                        (chunked
                           ++ [Called build (inr db);
                               Printed [AStr "VectorDB is created and saved."];
                               Called (collection_count db) (inr n);
                               Printed [AStr "Number of vectors in vectordb:";
                                        AInt n; AStr (newline ++ newline)]])
                  end
              end
          end
      end
  end.
Proof.
  unfold after_load, __chunk_documents.
  destruct (text_splitter self) as [s |]; simpl; [| reflexivity].
  destruct (h _ (split_documents s docs) w) as [[e | chunks] w1]; simpl;
    [reflexivity |].
  destruct (persist_directory self) as [dir |]; simpl; [| reflexivity].
  destruct (h _ (Chroma_from_documents chunks (embedding self) dir) w1)
    as [[e | db] w2]; simpl; [reflexivity |].
  destruct (h _ (collection_count db) w2) as [[e | n] w3]; reflexivity.
Qed.

(** At most one write, and only to the directory and with the embedding
    client of the object. *)
Lemma after_load_writes self docs w :
  let o := run h (after_load self docs) w in
  (List.length (index_writes (trace o)) <= 1)%nat /\
  (forall v, result o = inr v -> List.length (index_writes (trace o)) = 1%nat) /\
  forall d e dir r,
    In (d, e, dir, r) (index_writes (trace o)) ->
    persist_directory self = Some dir /\ e = embedding self.
Proof.
  cbv zeta. rewrite after_load_run. cbv zeta.
  destruct (text_splitter self) as [s |];
    [| no_write].
  destruct (h _ (split_documents s docs) w) as [[e | chunks] w1];
    [no_write |].
  destruct (persist_directory self) as [dir |];
    [| no_write].
  assert (one : forall d e dir' r,
             In (d, e, dir', r)
                [(chunks, embedding self, dir,
                  fst (h _ (Chroma_from_documents chunks (embedding self) dir) w1))] ->
             Some dir = Some dir' /\ e = embedding self).
  { intros d e dir' r [E | []]. injection E as _ <- <- _. split; reflexivity. }
  destruct (h _ (Chroma_from_documents chunks (embedding self) dir) w1)
    as [[e | db] w2]; cbn [fst] in one.
  - cbn. split; [lia | split; [discriminate | exact one]].
  - destruct (h _ (collection_count db) w2) as [[e | n] w3];
      cbn; (split; [lia | split; [| exact one]]);
      [discriminate | reflexivity].
Qed.

End AfterLoad.

(** * Construction *)

(** Runs [__init__] against [h], one case per answer of the libraries. *)
Ltac run_init h :=
  unfold __init__; simpl;
  repeat match goal with
         | |- context [String.eqb ?a ?b] =>
             destruct (String.eqb a b) eqn:?; simpl
         | |- context [h _ ?c ?w] =>
             let e := fresh "e" in
             let x := fresh "x" in
             let w' := fresh "w" in
             destruct (h _ c w) as [[e | x] w'] eqn:?; simpl
         end.

Section Construction.
Context `{Backend} {W : Type} (h : handler W).

(** What a successful construction leaves in the object. *)
Lemma init_return dd tdir rdir eng cs co tcs tco policy w self :
  result (run h (__init__ dd tdir rdir eng cs co tcs tco policy) w) = inr self ->
  splitter_type self = policy /\
  data_directory self = dd /\
  persist_directory self =
    (if String.eqb policy "recursive" then Some rdir
     else if String.eqb policy "token" then Some tdir
     else None) /\
  (text_splitter self = None <-> persist_directory self = None).
Proof.
  run_init h; intros E; try discriminate; injection E as <-; simpl;
    (split; [reflexivity | split; [reflexivity | split; [reflexivity |]]]);
    split; congruence.
Qed.

Lemma init_within dd tdir rdir eng cs co tcs tco policy :
  within is_construct (__init__ dd tdir rdir eng cs co tcs tco policy).
Proof.
  unfold __init__; simpl.
  destruct (String.eqb policy "recursive"); simpl;
    [| destruct (String.eqb policy "token"); simpl];
    repeat (split; [reflexivity | intros ?]); exact I.
Qed.

End Construction.

(** * Counting the index *)

Section Counting.
Context `{Backend} {W : Type} (h : handler W) (fresh : W -> string -> Prop).
Hypothesis contract : index_contract h fresh.

(** Stages that do not store leave a fresh directory fresh. *)
Lemma within_fresh {A : Type} (S : stage -> bool) (p : prog A) w dir :
  (forall st, S st = true -> is_store st = false) ->
  within S p -> fresh w dir -> fresh (world (run h p w)) dir.
Proof.
  intros HS. revert w; induction p as [a | e | line k IH | X c k IH];
    intros w; simpl; try (intros _ F; exact F).
  - apply IH.
  - intros [Sc Sk] F.
    pose proof (fresh_kept h fresh contract X c w dir (HS _ Sc) F) as F1.
    destruct (h _ c w) as [[e | x] w1]; simpl in *; [exact F1 |].
    apply IH; [apply Sk | exact F1].
Qed.

Lemma load_keeps_fresh self w dir :
  fresh w dir -> fresh (world (run h (__load_all_documents self) w)) dir.
Proof.
  apply (within_fresh is_load); [| apply load_all_within].
  intros [] E; (reflexivity || discriminate).
Qed.

(** When the statements after the load return, the splitter was asked
    once, for the documents loaded; the store was asked once, for the
    chunks the splitter gave; and the index counts these chunks. *)
Lemma after_load_return self docs w dir v :
  persist_directory self = Some dir ->
  fresh w dir ->
  result (run h (after_load self docs) w) = inr v ->
  let tr := trace (run h (after_load self docs) w) in
  exists s chunks,
    text_splitter self = Some s /\
    chunkings tr = [(s, docs, inr chunks)] /\
    index_writes tr = [(chunks, embedding self, dir, inr v)] /\
    counts tr = [(v, inr (len chunks))].
Proof.
  intros PD F. cbv zeta. rewrite after_load_run. cbv zeta.
  destruct (text_splitter self) as [s |]; [| discriminate].
  pose proof (fresh_kept h fresh contract _ (split_documents s docs) w dir
                eq_refl F) as F1.
  destruct (h _ (split_documents s docs) w) as [[e | chunks] w1];
    [discriminate |].
  rewrite PD. simpl in F1.
  pose proof (fresh_count h fresh contract chunks (embedding self) dir w1) as C.
  destruct (h _ (Chroma_from_documents chunks (embedding self) dir) w1)
    as [[e | db] w2]; [discriminate |].
  specialize (C db w2 F1 eq_refl).
  destruct (h _ (collection_count db) w2) as [[e | n] w3]; [discriminate |].
  simpl in C. injection C as ->.
  cbn. intros E; injection E as ->.
  exists s, chunks. repeat split.
Qed.

End Counting.

(** * The reference backend meets the contracts *)

Lemma ref_stored_after_write (w : Ref.World) (dir : string) (docs : list Ref.page_doc) :
  Ref.stored
    {| Ref.files := Ref.files w; Ref.dirs := Ref.dirs w;
       Ref.stores := (dir, (Ref.stored w dir ++ docs)%list) :: Ref.stores w |} dir
  = (Ref.stored w dir ++ docs)%list.
Proof. unfold Ref.stored at 1. simpl. rewrite String.eqb_refl. reflexivity. Qed.

Lemma ref_index_contract : index_contract Ref.handle Ref.fresh.
Proof.
  split.
  - intros X c w dir S F. destruct c; simpl in *; try exact F; discriminate.
  - intros docs e dir w v w' F E. destruct docs as [| d docs]; [discriminate |].
    simpl in E. injection E as <- <-.
    cbn [Ref.handle fst]. rewrite ref_stored_after_write, F. reflexivity.
Qed.

(** The two objects of the reference backend are what [__init__] returns. *)
Lemma ref_pipeline_objects (data : pyval) (w : Ref.World) :
  result (run Ref.handle (Ref.pipeline data "recursive") w)
    = inr (Ref.recursive_pipeline data) /\
  result (run Ref.handle (Ref.pipeline data "token") w)
    = inr (Ref.token_pipeline data).
Proof. split; reflexivity. Qed.

Lemma ref_pure_splitter : pure_splitter Ref.handle.
Proof. intros s docs w1 w2. reflexivity. Qed.

(** * Where exceptions come from *)

Section FurtherFacts.
Context `{Backend} {W : Type} (h : handler W).

Lemma never_raises_bind {A B : Type} (p : prog A) (f : A -> prog B) :
  never_raises p -> (forall a, never_raises (f a)) -> never_raises (bind p f).
Proof.
  intros Hp Hf. induction p as [a | e | line k IH | X c k IH]; simpl in *.
  - apply Hf.
  - exact Hp.
  - apply IH, Hp.
  - intros x. apply IH, Hp.
Qed.

(** A program that raises nothing itself ends with an exception only
    because its last call was answered with it, no call having failed
    before. *)
Lemma raise_origin {A : Type} (p : prog A) (w : W) x :
  never_raises p ->
  result (run h p w) = inl x ->
  exists e t ev,
    x = LibraryError e /\
    trace (run h p w) = (t ++ [ev])%list /\
    failure ev = Some e /\
    collect failure t = [].
Proof.
  revert w; induction p as [a | e0 | line k IH | X c k IH]; intros w; simpl.
  - discriminate.
  - intros [].
  - intros Hk R. destruct (IH w Hk R) as (e & t & ev & -> & T & F & N).
    exists e, (Printed line :: t), ev. rewrite T. repeat split; assumption.
  - intros Hk. destruct (h _ c w) as [[e0 | a] w1]; simpl; intros R.
    + injection R as <-. exists e0, [], (Called c (inl e0)). repeat split.
    + destruct (IH a w1 (Hk a) R) as (e & t & ev & -> & T & F & N).
      exists e, (Called c (inr a) :: t), ev. rewrite T. repeat split; assumption.
Qed.

Lemma load_uploaded_never_raises paths docs n : never_raises (load_uploaded paths docs n).
Proof.
  revert docs n; induction paths as [| p paths IH]; intros docs n; simpl.
  - exact I.
  - intros pages. apply IH.
Qed.

Lemma load_listed_never_raises dir names docs n :
  never_raises (load_listed dir names docs n).
Proof.
  revert docs n; induction names as [| name names IH]; intros docs n; simpl.
  - exact I.
  - intros path pages. apply IH.
Qed.

Lemma load_all_never_raises self : never_raises (__load_all_documents self).
Proof.
  unfold __load_all_documents.
  destruct (isinstance_list (data_directory self)); simpl.
  - apply never_raises_bind; [apply load_uploaded_never_raises |].
    intros [docs n]; simpl. exact I.
  - intros names. apply never_raises_bind; [apply load_listed_never_raises |].
    intros [docs n]; simpl. exact I.
Qed.

Lemma after_load_never_raises self docs s dir :
  text_splitter self = Some s ->
  persist_directory self = Some dir ->
  never_raises (after_load self docs).
Proof.
  intros TS PD. unfold after_load, __chunk_documents. rewrite TS, PD. simpl.
  intros chunks db n. exact I.
Qed.

(** The loops print nothing. *)
Lemma load_uploaded_prints paths docs n w :
  printed (trace (run h (load_uploaded paths docs n) w)) = [].
Proof.
  revert docs n w; induction paths as [| p paths IH]; intros docs n w; simpl.
  - reflexivity.
  - destruct (h _ (PyPDFLoader_load p) w) as [[e | pages] w1]; simpl;
      [reflexivity | apply IH].
Qed.

Lemma load_listed_prints dir names docs n w :
  printed (trace (run h (load_listed dir names docs n) w)) = [].
Proof.
  revert docs n w; induction names as [| name names IH]; intros docs n w; simpl.
  - reflexivity.
  - destruct (h _ (os_path_join dir name) w) as [[e | path] w1]; simpl;
      [reflexivity |].
    destruct (h _ (PyPDFLoader_load path) w1) as [[e | pages] w2]; simpl;
      [reflexivity | apply IH].
Qed.

(** Where the loop over the given paths stops when a file fails. *)
Lemma load_uploaded_raise paths docs n w x :
  result (run h (load_uploaded paths docs n) w) = inl x ->
  exists files p rest e,
    x = LibraryError e /\
    paths = (map fst files ++ p :: rest)%list /\
    loads (trace (run h (load_uploaded paths docs n) w))
      = (as_loads files ++ [(p, inl e)])%list.
Proof.
  revert docs n w; induction paths as [| p paths IH]; intros docs n w; simpl.
  - discriminate.
  - destruct (h _ (PyPDFLoader_load p) w) as [[e | pages] w1]; simpl.
    + intros E; injection E as <-. exists [], p, paths, e. repeat split.
    + intros R. destruct (IH _ _ _ R) as (files & q & rest & e & -> & P & L).
      exists ((p, pages) :: files), q, rest, e. simpl. repeat split.
      * rewrite P. reflexivity.
      * unfold loads in *. simpl. rewrite L. reflexivity.
Qed.

(** What a load that returns loaded and printed. *)
Lemma load_all_return self w docs :
  result (run h (__load_all_documents self) w) = inr docs ->
  exists files,
    loads (trace (run h (__load_all_documents self) w)) = as_loads files /\
    docs = List.concat (map snd files) /\
    printed (trace (run h (__load_all_documents self) w))
      = load_log self (len files) (len docs).
Proof.
  unfold load_log, load_banner.
  destruct (isinstance_list (data_directory self)) eqn:L.
  - rewrite (load_all_list h self w L). cbv zeta.
    pose proof (load_uploaded_prints (list_items (data_directory self)) [] 0 w) as P.
    destruct (result (run h (load_uploaded (list_items (data_directory self)) [] 0) w))
      as [e | [docs' n]] eqn:R; simpl; [discriminate |].
    intros E; injection E as ->.
    destruct (load_uploaded_return h _ _ _ _ _ _ R) as (files & F & Lo & D & N).
    simpl in D. exists files. split; [skip_prints; exact Lo | split; [exact D |]].
    unfold printed in *. cbn [collect printed_line]. rewrite collect_app, P.
    simpl. rewrite N, <- F. unfold len. rewrite length_map. reflexivity.
  - rewrite (load_all_listed h self w L).
    destruct (h _ (os_listdir (data_directory self)) w) as [[e | names] w1]; simpl;
      [discriminate |].
    pose proof (load_listed_prints (data_directory self) names [] 0 w1) as P.
    destruct (result (run h (load_listed (data_directory self) names [] 0) w1))
      as [e | [docs' n]] eqn:R; simpl; [discriminate |].
    intros E; injection E as ->.
    destruct (load_listed_return h _ _ _ _ _ _ _ R) as (files & F & Jo & Lo & D & N).
    simpl in D. exists files. split; [skip_prints; exact Lo | split; [exact D |]].
    unfold printed in *. cbn [collect printed_line]. rewrite collect_app, P.
    simpl. rewrite N. unfold len. rewrite F. reflexivity.
Qed.

End FurtherFacts.

(** * What a run can and cannot repeat *)

Section Shapes.
Context `{Backend} {W : Type} (h : handler W).

(** No call fails before the one that ends the run. *)
Lemma failure_is_first {A : Type} (p : prog A) (w : W) t1 ev t2 e :
  trace (run h p w) = (t1 ++ ev :: t2)%list ->
  failure ev = Some e ->
  collect failure t1 = [].
Proof.
  intros T F.
  destruct (collect failure t1) as [| e0 l] eqn:C; [reflexivity |].
  destruct (collect_In failure t1 e0) as (a & ev0 & b & -> & F0).
  { rewrite C. left. reflexivity. }
  rewrite <- app_assoc in T. simpl in T.
  destruct (failure_is_final h p w a ev0 _ e0 T F0) as [N _].
  destruct b; discriminate.
Qed.

(** Where no call failed, every file asked for was loaded. *)
Lemma loads_without_failure (t : list event) :
  collect failure t = [] -> exists files, loads t = as_loads files.
Proof.
  unfold loads. induction t as [| ev t IH]; simpl.
  - intros _. exists []. reflexivity.
  - destruct ev as [line | X c r]; simpl; [exact IH |].
    destruct c; simpl; try (destruct r; [discriminate | exact IH]).
    destruct r as [e | pages]; [discriminate |].
    intros N. destruct (IH N) as [files E].
    exists ((file_path, pages) :: files). simpl. rewrite E. reflexivity.
Qed.

(** The load lists at most once, and opens the files of its source one
    by one, in order, each at most once. *)
Lemma load_all_shape self w :
  let tr := trace (run h (__load_all_documents self) w) in
  if isinstance_list (data_directory self)
  then listings tr = [] /\ joins tr = [] /\
       exists rest, list_items (data_directory self) = (map fst (loads tr) ++ rest)%list
  else exists r,
       listings tr = [(data_directory self, r)] /\
       map fst (loads tr) = joined (joins tr) /\
       match r with
       | inl _ => joins tr = []
       | inr names =>
           exists rest, names = (map (fun j => snd (fst j)) (joins tr) ++ rest)%list
       end.
Proof.
  destruct (isinstance_list (data_directory self)) eqn:L; cbv zeta.
  - rewrite (load_all_list h self w L). cbv zeta.
    destruct (load_uploaded_trace h (list_items (data_directory self)) [] 0 w)
      as (Li & Jo & [rest Pre]).
    destruct (result (run h (load_uploaded (list_items (data_directory self)) [] 0) w))
      as [e | [docs n]]; cbn [trace].
    + split; [exact Li | split; [exact Jo | exists rest; exact Pre]].
    + skip_prints.
      split; [exact Li | split; [exact Jo | exists rest; exact Pre]].
  - rewrite (load_all_listed h self w L).
    destruct (h _ (os_listdir (data_directory self)) w) as [[e | names] w1].
    + exists (inl e). cbn. split; [reflexivity | split; reflexivity].
    + exists (inr names). cbv zeta.
      destruct (load_listed_trace h (data_directory self) names [] 0 w1)
        as (Li & _ & Lo & [rest Pre]).
      destruct (result (run h (load_listed (data_directory self) names [] 0) w1))
        as [e | [docs n]]; cbn [trace].
      * split; [| split; [exact Lo | exists rest; exact Pre]].
        unfold listings in *. cbn [collect listing]. rewrite Li. reflexivity.
      * skip_prints. rewrite Li.
        split; [reflexivity | split; [exact Lo | exists rest; exact Pre]].
Qed.

(** The statements after the load list, join and load nothing. *)
Lemma after_load_no_listing self docs w :
  listings (trace (run h (after_load self docs) w)) = [] /\
  joins (trace (run h (after_load self docs) w)) = [].
Proof.
  pose proof (within_run h after_loading _ w (after_load_within self docs)) as S.
  split; apply (stages_in_collect after_loading); try exact S.
  - intros ev N. exists Load. split; [apply listing_stage, N | reflexivity].
  - intros ev N. exists Load. split; [apply joining_stage, N | reflexivity].
Qed.

(** They ask the splitter and the index count at most once, and a
    library exception they end with is the one of their last call. *)
Lemma after_load_shape self docs w :
  let o := run h (after_load self docs) w in
  (List.length (chunkings (trace o)) <= 1)%nat /\
  (List.length (counts (trace o)) <= 1)%nat /\
  forall e, result o = inl (LibraryError e) ->
            exists t ev, trace o = (t ++ [ev])%list /\ failure ev = Some e.
Proof.
  cbv zeta. rewrite after_load_run. cbv zeta.
  destruct (text_splitter self) as [s |];
    [| cbn; split; [lia | split; [lia | discriminate]]].
  destruct (h _ (split_documents s docs) w) as [[e | chunks] w1].
  { cbn. split; [lia | split; [lia |]]. intros e0 E. injection E as <-.
    eexists [_], _. split; reflexivity. }
  destruct (persist_directory self) as [dir |];
    [| cbn; split; [lia | split; [lia | discriminate]]].
  destruct (h _ (Chroma_from_documents chunks (embedding self) dir) w1)
    as [[e | db] w2].
  { cbn. split; [lia | split; [lia |]]. intros e0 E. injection E as <-.
    eexists [_; _; _; _], _. split; reflexivity. }
  destruct (h _ (collection_count db) w2) as [[e | n] w3].
  - cbn. split; [lia | split; [lia |]]. intros e0 E. injection E as <-.
    eexists [_; _; _; _; _; _], _. split; reflexivity.
  - cbn. split; [lia | split; [lia | discriminate]].
Qed.

End Shapes.

(** * The claims *)

(** C1, as the code has it: for either policy, [__init__] checks nothing
    itself.  It hands the size and the overlap of the selected policy, as
    they are, to the constructor of that policy's splitter, it lists and
    loads no document, and it succeeds exactly when none of the
    constructors it calls raises; an exception it ends with is the one a
    constructor raised. *)
Theorem construction_validates_nothing `{Backend} {W : Type} (h : handler W) (w : W)
    (dd : pyval) (tdir rdir eng : string) (cs co tcs tco : Z) (policy : string) :
  policy = "recursive" \/ policy = "token" ->
  let o := run h (__init__ dd tdir rdir eng cs co tcs tco policy) w in
  let size := if String.eqb policy "recursive" then cs else tcs in
  let overlap := if String.eqb policy "recursive" then co else tco in
  collect splitter_built (trace o) = [(policy, size, overlap)] /\
  stages_in is_construct (trace o) /\
  ((exists self, result o = inr self) <-> collect failure (trace o) = []) /\
  forall x, result o = inl x ->
            exists e, x = LibraryError e /\ collect failure (trace o) = [e].
Proof.
  intros P. cbv zeta.
  split; [| split; [apply within_run, init_within |]].
  - destruct P as [-> | ->]; run_init h; reflexivity.
  - destruct P as [-> | ->]; run_init h;
      (split; [split; [intros [self E]; try discriminate; reflexivity
                      | intros E; try discriminate; eexists; reflexivity]
              | intros exc E; try discriminate; injection E as <-;
                eexists; split; reflexivity]).
Qed.

(** C1 as stated fails: two configurations section 7 calls invalid, an
    overlap equal to the size and a size that is not positive, are
    constructed without any exception, although the reference splitter
    rejects an overlap above the size. *)
Lemma construction_accepts_invalid_sizes :
  spec_valid_configuration 8 8 4 1 "recursive" = false /\
  spec_valid_configuration 8 2 0 (-3) "token" = false /\
  (exists self,
      result (run Ref.handle
                (__init__ (PyStr "data") "db/token" "db/recursive"
                   "text-embedding-ada-002" 8 8 4 1 "recursive") Ref.disk)
      = inr self) /\
  (exists self,
      result (run Ref.handle
                (__init__ (PyStr "data") "db/token" "db/recursive"
                   "text-embedding-ada-002" 8 2 0 (-3) "token") Ref.disk)
      = inr self).
Proof.
  split; [reflexivity | split; [reflexivity |]].
  split; eexists; reflexivity.
Qed.

Lemma construction_validates_nothing_witness :
  collect splitter_built
    (trace (run Ref.handle
              (__init__ (PyStr "data") "db/token" "db/recursive"
                 "text-embedding-ada-002" 8 8 4 1 "recursive") Ref.disk))
  = [("recursive", 8, 8)].
Proof.
  exact (proj1 (construction_validates_nothing Ref.handle Ref.disk
                  (PyStr "data") "db/token" "db/recursive"
                  "text-embedding-ada-002" 8 8 4 1 "recursive"
                  (or_introl eq_refl))).
Defined.

(** C2, where the code departs from it: a [splitter_type] that is
    neither [recursive] nor [token] is not rejected.  Provided the
    embedding client is built, [__init__] returns an object on which no
    policy is active, with neither [text_splitter] nor
    [persist_directory] assigned; [prepare_and_save_vectordb] then loads
    every document before it fails on the missing attribute. *)
Theorem unrecognised_policy_no_splitter `{Backend} {W : Type} (h : handler W) (w w1 : W)
    (dd : pyval) (tdir rdir eng : string) (cs co tcs tco : Z) (policy : string)
    (emb : Embeddings) :
  policy <> "recursive" ->
  policy <> "token" ->
  h _ (OpenAIEmbeddings eng) w = (inr emb, w1) ->
  exists self,
    result (run h (__init__ dd tdir rdir eng cs co tcs tco policy) w) = inr self /\
    splitter_type self = policy /\
    text_splitter self = None /\
    persist_directory self = None /\
    forall w2 docs,
      result (run h (__load_all_documents self) w2) = inr docs ->
      result (run h (prepare_and_save_vectordb self) w2)
        = inl (AttributeError "text_splitter") /\
      index_writes (trace (run h (prepare_and_save_vectordb self) w2)) = [].
Proof.
  intros R T E.
  apply String.eqb_neq in R. apply String.eqb_neq in T.
  unfold __init__. simpl. rewrite R, T. simpl. rewrite E. simpl.
  eexists. split; [reflexivity |]. simpl.
  repeat (split; [reflexivity |]).
  intros w2 docs L.
  rewrite prepare_unfold, (run_bind_return h _ _ w2 docs L), after_load_run.
  simpl. split; [reflexivity |].
  unfold index_writes. rewrite collect_app. simpl. rewrite app_nil_r.
  apply (load_trace_quiet h).
Qed.

Lemma unrecognised_policy_witness :
  exists self,
    result (run Ref.handle (Ref.pipeline (PyStr "data") "semantic") Ref.disk)
      = inr self /\
    splitter_type self = "semantic" /\
    text_splitter self = None /\
    persist_directory self = None /\
    forall w2 docs,
      result (run Ref.handle (__load_all_documents self) w2) = inr docs ->
      result (run Ref.handle (prepare_and_save_vectordb self) w2)
        = inl (AttributeError "text_splitter") /\
      index_writes (trace (run Ref.handle (prepare_and_save_vectordb self) w2)) = [].
Proof.
  apply (unrecognised_policy_no_splitter Ref.handle Ref.disk Ref.disk
           (PyStr "data") "db/token" "db/recursive" "text-embedding-ada-002"
           8 2 4 1 "semantic" "text-embedding-ada-002").
  - discriminate.
  - discriminate.
  - reflexivity.
Defined.

(** C3: when [prepare_and_save_vectordb] returns, the store was handed
    exactly the chunks the splitter made of the loaded documents, once,
    under the directory of the object; so the index it built in that
    directory, which held no index before, counts one entry per chunk. *)
Theorem index_count_equals_chunks `{Backend} {W : Type} (h : handler W)
    (fresh : W -> string -> Prop) (w : W) (self : PrepareVectorDB)
    (dir : string) (v : Chroma) :
  index_contract h fresh ->
  persist_directory self = Some dir ->
  fresh w dir ->
  result (run h (prepare_and_save_vectordb self) w) = inr v ->
  let tr := trace (run h (prepare_and_save_vectordb self) w) in
  exists docs s chunks,
    result (run h (__load_all_documents self) w) = inr docs /\
    text_splitter self = Some s /\
    chunkings tr = [(s, docs, inr chunks)] /\
    index_writes tr = [(chunks, embedding self, dir, inr v)] /\
    counts tr = [(v, inr (len chunks))].
Proof.
  intros contract PD F. cbv zeta. rewrite prepare_unfold, run_bind.
  destruct (load_trace_quiet h self w) as (Q1 & Q2 & Q3).
  pose proof (load_keeps_fresh h fresh contract self w dir F) as F1.
  destruct (result (run h (__load_all_documents self) w)) as [e | docs];
    [discriminate |].
  cbv zeta. cbn [trace result]. intros R.
  destruct (after_load_return h fresh contract self docs _ dir v PD F1 R)
    as (s & chunks & TS & A1 & A2 & A3).
  exists docs, s, chunks.
  unfold chunkings, index_writes, counts in *.
  rewrite !collect_app, Q1, Q2, Q3, A1, A2, A3.
  repeat split; assumption.
Qed.

Lemma index_count_witness :
  exists docs s chunks,
    result (run Ref.handle
              (__load_all_documents (Ref.recursive_pipeline (PyStr "data"))) Ref.disk)
      = inr docs /\
    text_splitter (Ref.recursive_pipeline (PyStr "data")) = Some s /\
    chunkings
      (trace (run Ref.handle
                (prepare_and_save_vectordb (Ref.recursive_pipeline (PyStr "data")))
                Ref.disk))
      = [(s, docs, inr chunks)] /\
    index_writes
      (trace (run Ref.handle
                (prepare_and_save_vectordb (Ref.recursive_pipeline (PyStr "data")))
                Ref.disk))
      = [(chunks, "text-embedding-ada-002", "db/recursive", inr "db/recursive")] /\
    counts
      (trace (run Ref.handle
                (prepare_and_save_vectordb (Ref.recursive_pipeline (PyStr "data")))
                Ref.disk))
      = [("db/recursive", inr (len chunks))].
Proof.
  apply (index_count_equals_chunks Ref.handle Ref.fresh Ref.disk
           (Ref.recursive_pipeline (PyStr "data")) "db/recursive" "db/recursive"
           ref_index_contract).
  - reflexivity.
  - reflexivity.
  - reflexivity.
Defined.

(** C4, as the code has it: when the loader raises on a file,
    [__load_all_documents] ends with the exception the loader raised,
    as it is, and so does [prepare_and_save_vectordb]: nothing is
    wrapped, so the exception names the file only if the loader's does.
    That file is the last one opened and the files opened before it had
    loaded.  The vector store is never called, so nothing is written to
    the persistence directory: with a store that is the only one to
    write there, a directory that held no index before the run holds
    none after it.  Every listed name is handed to the loader (C5, C9):
    no file is filtered out first. *)
Theorem corrupt_file_aborts `{Backend} {W : Type} (h : handler W) (w : W)
    (self : PrepareVectorDB) (path : string) (e : LibError) :
  In (path, inl e) (loads (trace (run h (prepare_and_save_vectordb self) w))) ->
  result (run h (__load_all_documents self) w) = inl (LibraryError e) /\
  result (run h (prepare_and_save_vectordb self) w) = inl (LibraryError e) /\
  (exists files,
      loads (trace (run h (prepare_and_save_vectordb self) w))
      = (as_loads files ++ [(path, inl e)])%list) /\
  index_writes (trace (run h (prepare_and_save_vectordb self) w)) = [] /\
  counts (trace (run h (prepare_and_save_vectordb self) w)) = [] /\
  forall (fresh : W -> string -> Prop) (dir : string),
    index_contract h fresh ->
    fresh w dir ->
    fresh (world (run h (prepare_and_save_vectordb self) w)) dir.
Proof.
  intros I.
  destruct (collect_In loading _ _ I) as (t1 & ev & t2 & T & L).
  pose proof (loading_failure ev path e L) as F.
  destruct (failure_is_final h _ w t1 ev t2 e T F) as [-> R].
  pose proof (failure_is_first h _ w t1 ev [] e T F) as N.
  destruct (loads_without_failure t1 N) as [files Lo].
  assert (opened : loads (trace (run h (prepare_and_save_vectordb self) w))
                   = (as_loads files ++ [(path, inl e)])%list).
  { rewrite T. unfold loads in *. rewrite collect_app, Lo. simpl. rewrite L.
    reflexivity. }
  clear T Lo N. revert I R opened. rewrite prepare_unfold, run_bind.
  destruct (load_trace_quiet h self w) as (_ & Q & C).
  destruct (result (run h (__load_all_documents self) w)) as [x | docs] eqn:Ld.
  - cbn [trace result world]. intros _ R opened. injection R as ->.
    split; [reflexivity | split; [reflexivity | split; [exists files; exact opened |]]].
    split; [exact Q | split; [exact C |]].
    intros fresh dir contract Fr. apply (load_keeps_fresh h fresh contract), Fr.
  - cbv zeta. cbn [trace result]. intros I _ _. exfalso.
    unfold loads in I. rewrite collect_app in I.
    fold loads in I. rewrite after_load_quiet, app_nil_r in I.
    destruct (collect_In loading _ _ I) as (a & ev' & b & T' & L').
    apply loading_failure in L'.
    destruct (failure_is_final h _ w a ev' b e T' L') as [_ R']. congruence.
Qed.

(** C4 as stated fails: with a loader that reports a broken file as
    pypdf does, the load ends with an exception that is no
    [DocumentLoadError] and names no file. *)
Lemma loader_exception_names_no_file :
  In ("mixed/notes.txt", inl (Ref.PdfStreamError "Stream has ended unexpectedly"))
     (loads (trace (run Ref.pypdf_handle
                      (__load_all_documents (Ref.recursive_pipeline (PyStr "mixed")))
                      Ref.disk))) /\
  result (run Ref.pypdf_handle
            (__load_all_documents (Ref.recursive_pipeline (PyStr "mixed"))) Ref.disk)
    = inl (LibraryError (Ref.PdfStreamError "Stream has ended unexpectedly")) /\
  Ref.identifies (Ref.PdfStreamError "Stream has ended unexpectedly")
    "mixed/notes.txt" = false.
Proof.
  split; [simpl; right; left; reflexivity | split; reflexivity].
Qed.

Lemma corrupt_file_witness :
  result (run Ref.handle
            (__load_all_documents (Ref.recursive_pipeline (PyStr "mixed"))) Ref.disk)
    = inl (LibraryError (Ref.DocumentLoadError "mixed/notes.txt")) /\
  result Ref.mixed_run = inl (LibraryError (Ref.DocumentLoadError "mixed/notes.txt")) /\
  (exists files,
      loads (trace Ref.mixed_run)
      = (as_loads files
           ++ [("mixed/notes.txt", inl (Ref.DocumentLoadError "mixed/notes.txt"))])%list) /\
  index_writes (trace Ref.mixed_run) = [] /\
  counts (trace Ref.mixed_run) = [] /\
  forall (fresh : Ref.World -> string -> Prop) (dir : string),
    index_contract Ref.handle fresh ->
    fresh Ref.disk dir ->
    fresh (world Ref.mixed_run) dir.
Proof.
  apply (corrupt_file_aborts Ref.handle Ref.disk
           (Ref.recursive_pipeline (PyStr "mixed")) "mixed/notes.txt"
           (Ref.DocumentLoadError "mixed/notes.txt")).
  simpl. right. left. reflexivity.
Defined.

(** C5: when [__load_all_documents] returns, the files it loaded all
    loaded, and the documents returned are their pages, file after file:
    one document per page, as many as the page counts add up to.  In list
    mode the files are the given paths in the given order; in directory
    mode they are the entries of the directory listing, joined to the
    directory, in the order of the listing. *)
Theorem load_documents_order `{Backend} {W : Type} (h : handler W) (w : W)
    (self : PrepareVectorDB) (docs : list Document) :
  result (run h (__load_all_documents self) w) = inr docs ->
  let tr := trace (run h (__load_all_documents self) w) in
  exists files : list (string * list Document),
    loads tr = as_loads files /\
    docs = List.concat (map snd files) /\
    List.length docs = pages_total files /\
    if isinstance_list (data_directory self)
    then map fst files = list_items (data_directory self)
         /\ listings tr = [] /\ joins tr = []
    else exists names,
        listings tr = [(data_directory self, inr names)] /\
        List.length files = List.length names /\
        joins tr = as_joins (data_directory self) names (map fst files).
Proof.
  assert (total : forall files : list (string * list Document),
             List.length (List.concat (map snd files)) = pages_total files).
  { intros files. unfold pages_total. rewrite length_concat, map_map. reflexivity. }
  destruct (isinstance_list (data_directory self)) eqn:L; cbv zeta.
  - rewrite (load_all_list h self w L). cbv zeta.
    destruct (result (run h (load_uploaded (list_items (data_directory self)) [] 0) w))
      as [e | [docs' n]] eqn:R; simpl; [discriminate |].
    intros E; injection E as ->.
    destruct (load_uploaded_return h _ _ _ _ _ _ R) as (files & F & Lo & D & _).
    destruct (load_uploaded_trace h (list_items (data_directory self)) [] 0 w)
      as (Li & Jo & _).
    simpl in D. subst docs.
    exists files. repeat split.
    + skip_prints. exact Lo.
    + apply total.
    + exact F.
    + skip_prints. exact Li.
    + skip_prints. exact Jo.
  - rewrite (load_all_listed h self w L).
    destruct (h _ (os_listdir (data_directory self)) w) as [[e | names] w1]; simpl;
      [discriminate |].
    destruct (result (run h (load_listed (data_directory self) names [] 0) w1))
      as [e | [docs' n]] eqn:R; simpl; [discriminate |].
    intros E; injection E as ->.
    destruct (load_listed_return h _ _ _ _ _ _ _ R) as (files & F & Jo & Lo & D & _).
    destruct (load_listed_trace h (data_directory self) names [] 0 w1) as (Li & _).
    simpl in D. subst docs.
    exists files. repeat split.
    + skip_prints. exact Lo.
    + apply total.
    + exists names. repeat split.
      * skip_prints. rewrite Li. reflexivity.
      * exact F.
      * skip_prints. exact Jo.
Qed.

Lemma load_documents_order_witness :
  exists files : list (string * list Ref.page_doc),
    loads (trace (run Ref.handle
                    (__load_all_documents (Ref.recursive_pipeline (PyStr "data")))
                    Ref.disk)) = as_loads files /\
    Ref.data_pages = List.concat (map snd files) /\
    List.length Ref.data_pages = pages_total files /\
    exists names,
      listings (trace (run Ref.handle
                         (__load_all_documents (Ref.recursive_pipeline (PyStr "data")))
                         Ref.disk)) = [(PyStr "data", inr names)] /\
      List.length files = List.length names /\
      joins (trace (run Ref.handle
                      (__load_all_documents (Ref.recursive_pipeline (PyStr "data")))
                      Ref.disk)) = as_joins (PyStr "data") names (map fst files).
Proof.
  apply (load_documents_order Ref.handle Ref.disk
           (Ref.recursive_pipeline (PyStr "data")) Ref.data_pages).
  reflexivity.
Defined.

(** C6: with a splitter that is a function of its input, two calls of
    [__chunk_documents] on the same object and the same documents give
    the same result, whatever happened in between: the same chunks or
    the same exception, and the same chunk count printed. *)
Theorem chunking_deterministic `{Backend} {W : Type} (h : handler W)
    (self : PrepareVectorDB) (docs : list Document) (w1 w2 : W) :
  pure_splitter h ->
  result (run h (__chunk_documents self docs) w1)
    = result (run h (__chunk_documents self docs) w2) /\
  printed (trace (run h (__chunk_documents self docs) w1))
    = printed (trace (run h (__chunk_documents self docs) w2)).
Proof.
  intros P. unfold __chunk_documents.
  destruct (text_splitter self) as [s |]; simpl; [| split; reflexivity].
  specialize (P s docs w1 w2).
  destruct (h _ (split_documents s docs) w1) as [[e1 | c1] w1'];
    destruct (h _ (split_documents s docs) w2) as [[e2 | c2] w2'];
    simpl in P; try discriminate; injection P as ->; split; reflexivity.
Qed.

Lemma chunking_deterministic_witness :
  result (run Ref.handle
            (__chunk_documents (Ref.recursive_pipeline (PyStr "data")) Ref.data_pages)
            Ref.disk)
    = result (run Ref.handle
                (__chunk_documents (Ref.recursive_pipeline (PyStr "data")) Ref.data_pages)
                Ref.used_disk) /\
  printed (trace (run Ref.handle
            (__chunk_documents (Ref.recursive_pipeline (PyStr "data")) Ref.data_pages)
            Ref.disk))
    = printed (trace (run Ref.handle
                (__chunk_documents (Ref.recursive_pipeline (PyStr "data")) Ref.data_pages)
                Ref.used_disk)).
Proof.
  apply (chunking_deterministic Ref.handle (Ref.recursive_pipeline (PyStr "data"))
           Ref.data_pages Ref.disk Ref.used_disk).
  exact ref_pure_splitter.
Defined.

(** C7: [prepare_and_save_vectordb] passes on the exception of a library
    call and nothing else.  A call answered with an exception ends the
    run with that exception, no call having failed before it and none
    following it; a library exception the run ends with is the one of
    its last call, so none is replaced or made up; a run that returns
    saw no call fail.  And no stage is gone through again: the directory
    is listed at most once, the files of the source are opened one by
    one in order, each at most once, and the splitter, the store and the
    index count are each asked at most once. *)
Theorem errors_propagate `{Backend} {W : Type} (h : handler W) (w : W)
    (self : PrepareVectorDB) :
  let o := run h (prepare_and_save_vectordb self) w in
  (forall t1 ev t2 e,
      trace o = (t1 ++ ev :: t2)%list ->
      failure ev = Some e ->
      result o = inl (LibraryError e) /\ collect failure t1 = [] /\ t2 = []) /\
  (forall e,
      result o = inl (LibraryError e) ->
      exists t ev, trace o = (t ++ [ev])%list /\ failure ev = Some e) /\
  (forall v, result o = inr v -> collect failure (trace o) = []) /\
  (List.length (listings (trace o)) <= 1)%nat /\
  (List.length (chunkings (trace o)) <= 1)%nat /\
  (List.length (index_writes (trace o)) <= 1)%nat /\
  (List.length (counts (trace o)) <= 1)%nat /\
  if isinstance_list (data_directory self)
  then exists rest,
      list_items (data_directory self) = (map fst (loads (trace o)) ++ rest)%list
  else map fst (loads (trace o)) = joined (joins (trace o)) /\
       forall names,
         In (data_directory self, inr names) (listings (trace o)) ->
         exists rest,
           names = (map (fun j => snd (fst j)) (joins (trace o)) ++ rest)%list.
Proof.
  cbv zeta.
  split.
  { intros t1 ev t2 e T F.
    destruct (failure_is_final h _ w t1 ev t2 e T F) as [E R].
    split; [exact R | split; [| exact E]].
    apply (failure_is_first h _ w t1 ev t2 e T F). }
  split; [| split; [intros v R; apply (return_no_failure h _ w v R) |]].
  - rewrite prepare_unfold, run_bind.
    destruct (result (run h (__load_all_documents self) w)) as [x | docs] eqn:L.
    + cbn [result trace]. intros e E. injection E as ->.
      destruct (raise_origin h _ w _ (load_all_never_raises self) L)
        as (e' & t & ev & E & T & F & _).
      injection E as <-. exists t, ev. split; assumption.
    + cbv zeta. cbn [result trace]. intros e E.
      destruct (after_load_shape h self docs
                  (world (run h (__load_all_documents self) w)))
        as (_ & _ & O).
      destruct (O e E) as (t & ev & T & F).
      exists (trace (run h (__load_all_documents self) w) ++ t)%list, ev.
      rewrite T, app_assoc. split; [reflexivity | exact F].
  - pose proof (load_all_shape h self w) as S. cbv zeta in S.
    destruct (load_trace_quiet h self w) as (Q1 & Q2 & Q3).
    rewrite prepare_unfold, run_bind.
    destruct (result (run h (__load_all_documents self) w)) as [x | docs] eqn:L.
    + cbn [trace]. rewrite Q1, Q2, Q3.
      destruct (isinstance_list (data_directory self)).
      * destruct S as (Li & _ & Pre). rewrite Li.
        repeat (split; [simpl; lia |]). exact Pre.
      * destruct S as (r & Li & Lo & Pre). rewrite Li.
        repeat (split; [simpl; lia |]). split; [exact Lo |].
        intros names [E | []]. injection E as ->. exact Pre.
    + cbv zeta. cbn [trace].
      set (w1 := world (run h (__load_all_documents self) w)).
      destruct (after_load_no_listing h self docs w1) as (A1 & A2).
      pose proof (after_load_quiet h self docs w1) as A3.
      destruct (after_load_shape h self docs w1) as (A4 & A5 & _).
      destruct (after_load_writes h self docs w1) as (A6 & _ & _).
      unfold listings, joins, loads, chunkings, index_writes, counts in *.
      rewrite !collect_app, Q1, Q2, Q3, A1, A2, A3, !app_nil_r. cbn [app].
      destruct (isinstance_list (data_directory self)).
      * destruct S as (Li & _ & Pre). rewrite Li.
        split; [simpl; lia |].
        split; [exact A4 | split; [exact A6 | split; [exact A5 | exact Pre]]].
      * destruct S as (r & Li & Lo & Pre). rewrite Li.
        split; [simpl; lia |].
        split; [exact A4 | split; [exact A6 | split; [exact A5 |]]].
        split; [exact Lo |].
        intros names [E | []]. injection E as ->. exact Pre.
Qed.

Lemma errors_propagate_witness :
  result Ref.mixed_run = inl (LibraryError (Ref.DocumentLoadError "mixed/notes.txt")) /\
  collect failure (removelast (trace Ref.mixed_run)) = [] /\
  @nil event = [].
Proof.
  apply (proj1 (errors_propagate Ref.handle Ref.disk
                  (Ref.recursive_pipeline (PyStr "mixed")))
           (removelast (trace Ref.mixed_run))
           (last (trace Ref.mixed_run) (Printed []))
           []
           (Ref.DocumentLoadError "mixed/notes.txt")).
  - reflexivity.
  - reflexivity.
Defined.

(** C8: an object built with [recursive] writes to the recursive
    directory only, one built with [token] to the token directory only.
    A run makes at most one write to a persistence directory, exactly one
    when it returns, and it goes to the directory of the policy the
    object was built with. *)
Theorem one_directory_per_policy `{Backend} {W : Type} (h : handler W) (w0 w : W)
    (dd : pyval) (tdir rdir eng : string) (cs co tcs tco : Z) (policy : string)
    (self : PrepareVectorDB) :
  result (run h (__init__ dd tdir rdir eng cs co tcs tco policy) w0) = inr self ->
  let o := run h (prepare_and_save_vectordb self) w in
  (List.length (index_writes (trace o)) <= 1)%nat /\
  (forall v, result o = inr v -> List.length (index_writes (trace o)) = 1%nat) /\
  forall docs e dir r,
    In (docs, e, dir, r) (index_writes (trace o)) ->
    (policy = "recursive" /\ dir = rdir) \/
    (policy = "token" /\ dir = tdir).
Proof.
  intros I. destruct (init_return h _ _ _ _ _ _ _ _ _ _ _ I) as (_ & _ & P & _).
  cbv zeta. rewrite prepare_unfold, run_bind.
  destruct (load_trace_quiet h self w) as (_ & Q & _).
  destruct (result (run h (__load_all_documents self) w)) as [e | docs] eqn:L.
  - cbn [trace result]. rewrite Q. split; [simpl; lia |].
    split; [discriminate | intros ? ? ? ? []].
  - cbv zeta. cbn [trace result]. unfold index_writes in *.
    rewrite collect_app, Q. cbn [app].
    destruct (after_load_writes h self docs (world (run h (__load_all_documents self) w)))
      as (A1 & A2 & A3).
    split; [exact A1 | split; [exact A2 |]].
    intros d e dir r In1. destruct (A3 _ _ _ _ In1) as [D _].
    rewrite D in P.
    destruct (String.eqb policy "recursive") eqn:R.
    + left. apply String.eqb_eq in R. split; [exact R | congruence].
    + right. destruct (String.eqb policy "token") eqn:T; [| discriminate].
      apply String.eqb_eq in T. split; [exact T | congruence].
Qed.

Lemma one_directory_witness :
  (List.length
     (index_writes
        (trace (run Ref.handle
                  (prepare_and_save_vectordb (Ref.token_pipeline (PyStr "data")))
                  Ref.disk))) <= 1)%nat /\
  (forall v,
      result (run Ref.handle
                (prepare_and_save_vectordb (Ref.token_pipeline (PyStr "data")))
                Ref.disk) = inr v ->
      List.length
        (index_writes
           (trace (run Ref.handle
                     (prepare_and_save_vectordb (Ref.token_pipeline (PyStr "data")))
                     Ref.disk))) = 1%nat) /\
  forall docs e dir r,
    In (docs, e, dir, r)
       (index_writes
          (trace (run Ref.handle
                    (prepare_and_save_vectordb (Ref.token_pipeline (PyStr "data")))
                    Ref.disk))) ->
    ("token" = "recursive" /\ dir = "db/recursive") \/
    ("token" = "token" /\ dir = "db/token").
Proof.
  apply (one_directory_per_policy Ref.handle Ref.disk Ref.disk
           (PyStr "data") "db/token" "db/recursive" "text-embedding-ada-002"
           8 2 4 1 "token" (Ref.token_pipeline (PyStr "data"))).
  reflexivity.
Defined.

(** C9: the branch [__load_all_documents] takes is decided by
    [isinstance(self.data_directory, list)] alone.  A list is never
    listed as a directory nor joined to anything: its items are loaded
    as they are, in order.  Anything else, a string naming a file as
    much as [None] or a tuple of paths, goes to [os.listdir] first, and
    every file loaded is a listed name joined to that value. *)
Theorem mode_selection `{Backend} {W : Type} (h : handler W) (w : W)
    (self : PrepareVectorDB) :
  let tr := trace (run h (__load_all_documents self) w) in
  if isinstance_list (data_directory self)
  then listings tr = [] /\ joins tr = [] /\
       exists rest, list_items (data_directory self) = (map fst (loads tr) ++ rest)%list
  else exists r,
       listings tr = [(data_directory self, r)] /\
       Forall (fun j => fst (fst j) = data_directory self) (joins tr) /\
       map fst (loads tr) = joined (joins tr) /\
       match r with
       | inl _ => joins tr = []
       | inr names =>
           exists rest, names = (map (fun j => snd (fst j)) (joins tr) ++ rest)%list
       end.
Proof.
  destruct (isinstance_list (data_directory self)) eqn:L; cbv zeta.
  - rewrite (load_all_list h self w L). cbv zeta.
    destruct (load_uploaded_trace h (list_items (data_directory self)) [] 0 w)
      as (Li & Jo & Pre).
    destruct (result (run h (load_uploaded (list_items (data_directory self)) [] 0) w))
      as [e | [docs n]]; cbn [trace].
    + split; [exact Li | split; [exact Jo | exact Pre]].
    + split; [skip_prints; exact Li | split; [skip_prints; exact Jo |]].
      destruct Pre as [rest E]. exists rest. skip_prints. exact E.
  - rewrite (load_all_listed h self w L).
    destruct (h _ (os_listdir (data_directory self)) w) as [[e | names] w1].
    + exists (inl e). cbn. split; [reflexivity |].
      split; [constructor | split; reflexivity].
    + exists (inr names). cbv zeta.
      destruct (load_listed_trace h (data_directory self) names [] 0 w1)
        as (Li & Dir & Lo & Pre).
      destruct (result (run h (load_listed (data_directory self) names [] 0) w1))
        as [e | [docs n]]; cbn [trace].
      * split; [| split; [exact Dir | split; [exact Lo | exact Pre]]].
        unfold listings in *. cbn [collect listing]. rewrite Li. reflexivity.
      * split; [skip_prints; rewrite Li; reflexivity |].
        split; [skip_prints; exact Dir |].
        split; [skip_prints; exact Lo |].
        destruct Pre as [rest E]. exists rest. skip_prints. exact E.
Qed.

(** C10, as the code has it: an empty source is no error for the load
    and the chunking.  With an empty list of paths, or a directory whose
    listing is empty, [__load_all_documents] calls no loader and returns
    no document, and a splitter that makes nothing of nothing gives zero
    chunks.  [prepare_and_save_vectordb] has no guard for that case: it
    hands the store the empty batch, once, and its outcome is the
    store's.  If the store raises, the run ends with that exception and
    no count is taken; if it returns an index, the run returns it unless
    the count raises, and the index counts 0 when the directory held
    none before. *)
Theorem empty_source_reaches_store `{Backend} {W : Type} (h : handler W) (w : W)
    (self : PrepareVectorDB) (s : TextSplitter) (dir : string) :
  text_splitter self = Some s ->
  persist_directory self = Some dir ->
  empty_source h w self ->
  splits_nothing h s ->
  let o := run h (prepare_and_save_vectordb self) w in
  result (run h (__load_all_documents self) w) = inr [] /\
  loads (trace (run h (__load_all_documents self) w)) = [] /\
  (forall w1, result (run h (__chunk_documents self []) w1) = inr []) /\
  exists r,
    index_writes (trace o) = [([], embedding self, dir, r)] /\
    match r with
    | inl e => result o = inl (LibraryError e) /\ counts (trace o) = []
    | inr v =>
        exists c,
          counts (trace o) = [(v, c)] /\
          match c with
          | inl e => result o = inl (LibraryError e)
          | inr n =>
              result o = inr v /\
              forall fresh : W -> string -> Prop,
                index_contract h fresh -> fresh w dir -> n = 0
          end
    end.
Proof.
  intros TS PD E SN. cbv zeta.
  assert (L : result (run h (__load_all_documents self) w) = inr [] /\
              loads (trace (run h (__load_all_documents self) w)) = []).
  { unfold empty_source in E.
    destruct (isinstance_list (data_directory self)) eqn:M.
    - rewrite (load_all_list h self w M), E. split; reflexivity.
    - rewrite (load_all_listed h self w M).
      destruct (h _ (os_listdir (data_directory self)) w) as [[e | names] w1];
        simpl in E; [discriminate |].
      injection E as ->. split; reflexivity. }
  destruct L as [L1 L2].
  split; [exact L1 | split; [exact L2 | split] ].
  { intros w1. unfold __chunk_documents. rewrite TS. simpl.
    specialize (SN w1).
    destruct (h _ (split_documents s []) w1) as [[e | chunks] w2];
      simpl in SN; [discriminate |].
    injection SN as ->. reflexivity. }
  destruct (load_trace_quiet h self w) as (_ & Q2 & Q3).
  rewrite prepare_unfold, (run_bind_return h _ _ w [] L1).
  cbn [result trace]. rewrite after_load_run, TS, PD. cbv zeta.
  set (w1 := world (run h (__load_all_documents self) w)).
  assert (F1 : forall fresh : W -> string -> Prop,
             index_contract h fresh -> fresh w dir -> fresh w1 dir).
  { intros fresh contract F. apply (load_keeps_fresh h fresh contract), F. }
  clearbody w1.
  pose proof (SN w1) as S1.
  assert (F2 : forall fresh : W -> string -> Prop,
             index_contract h fresh -> fresh w dir ->
             fresh (snd (h _ (split_documents s []) w1)) dir).
  { intros fresh contract F.
    apply (fresh_kept h fresh contract _ (split_documents s []) w1 dir eq_refl).
    apply (F1 fresh contract F). }
  destruct (h _ (split_documents s []) w1) as [[e | chunks] w2];
    simpl in S1; [discriminate |].
  injection S1 as ->. simpl in F2.
  unfold index_writes, counts in *.
  destruct (h _ (Chroma_from_documents [] (embedding self) dir) w2)
    as [[e | db] w3] eqn:B.
  - exists (inl e). cbn [result trace]. rewrite !collect_app, Q2, Q3.
    split; [reflexivity | split; reflexivity].
  - exists (inr db).
    destruct (h _ (collection_count db) w3) as [[e | n] w4] eqn:C;
      cbn [result trace]; rewrite !collect_app, Q2, Q3;
      (split; [reflexivity |]).
    + exists (inl e). split; reflexivity.
    + exists (inr n). split; [reflexivity | split; [reflexivity |]].
      intros fresh contract F.
      pose proof (fresh_count h fresh contract [] (embedding self) dir w2 db w3
                    (F2 fresh contract F) B) as N.
      rewrite C in N. simpl in N. injection N as ->. reflexivity.
Qed.

(** C10 as stated fails: the directory is empty, the load returns no
    document and the splitter no chunk, but the store refuses the empty
    batch, as Chroma does, and [prepare_and_save_vectordb] ends with its
    exception instead of an index that counts 0. *)
Lemma empty_source_store_refuses :
  empty_source Ref.handle Ref.disk (Ref.recursive_pipeline (PyStr "empty")) /\
  result (run Ref.handle
            (__load_all_documents (Ref.recursive_pipeline (PyStr "empty"))) Ref.disk)
    = inr [] /\
  result (run Ref.handle
            (prepare_and_save_vectordb (Ref.recursive_pipeline (PyStr "empty")))
            Ref.disk)
    = inl (LibraryError (Ref.ValueError "Expected IDs to be a non-empty list")) /\
  counts (trace (run Ref.handle
                   (prepare_and_save_vectordb (Ref.recursive_pipeline (PyStr "empty")))
                   Ref.disk)) = [].
Proof. repeat split. Qed.

Lemma empty_source_reaches_store_witness :
  result (run Ref.handle
            (__load_all_documents (Ref.recursive_pipeline (PyList []))) Ref.disk)
    = inr [] /\
  loads (trace (run Ref.handle
                  (__load_all_documents (Ref.recursive_pipeline (PyList [])))
                  Ref.disk)) = [] /\
  (forall w1,
      result (run Ref.handle
                (__chunk_documents (Ref.recursive_pipeline (PyList [])) []) w1)
      = inr []) /\
  exists r,
    index_writes
      (trace (run Ref.handle
                (prepare_and_save_vectordb (Ref.recursive_pipeline (PyList [])))
                Ref.disk))
      = [([], "text-embedding-ada-002", "db/recursive", r)] /\
    match r with
    | inl e =>
        result (run Ref.handle
                  (prepare_and_save_vectordb (Ref.recursive_pipeline (PyList [])))
                  Ref.disk) = inl (LibraryError e) /\
        counts (trace (run Ref.handle
                         (prepare_and_save_vectordb (Ref.recursive_pipeline (PyList [])))
                         Ref.disk)) = []
    | inr v =>
        exists c,
          counts (trace (run Ref.handle
                           (prepare_and_save_vectordb
                              (Ref.recursive_pipeline (PyList [])))
                           Ref.disk)) = [(v, c)] /\
          match c with
          | inl e =>
              result (run Ref.handle
                        (prepare_and_save_vectordb (Ref.recursive_pipeline (PyList [])))
                        Ref.disk) = inl (LibraryError e)
          | inr n =>
              result (run Ref.handle
                        (prepare_and_save_vectordb (Ref.recursive_pipeline (PyList [])))
                        Ref.disk) = inr v /\
              forall fresh : Ref.World -> string -> Prop,
                index_contract Ref.handle fresh -> fresh Ref.disk "db/recursive" -> n = 0
          end
    end.
Proof.
  apply (empty_source_reaches_store Ref.handle Ref.disk
           (Ref.recursive_pipeline (PyList []))
           (Ref.CharSplitter 8 2 [newline ++ newline; newline; " "; EmptyString])
           "db/recursive").
  - reflexivity.
  - reflexivity.
  - reflexivity.
  - intros w1. reflexivity.
Defined.

(** * Further properties *)

(** X1: the log of a run that returns.  [prepare_and_save_vectordb]
    prints eight lines, and the numbers in them are the ones of the run:
    the number of files loaded (not of pages), the number of pages
    returned by the loader over all files, the number of chunks the
    splitter returned, and the count the index answered. *)
Theorem returning_run_log `{Backend} {W : Type} (h : handler W) (w : W)
    (self : PrepareVectorDB) (v : Chroma) :
  result (run h (prepare_and_save_vectordb self) w) = inr v ->
  let tr := trace (run h (prepare_and_save_vectordb self) w) in
  exists files s chunks n,
    loads tr = as_loads files /\
    chunkings tr = [(s, List.concat (map snd files), inr chunks)] /\
    counts tr = [(v, inr n)] /\
    printed tr
      = (load_log self (len files) (Z.of_nat (pages_total files))
           ++ store_log (len chunks) n)%list.
Proof.
  cbv zeta. rewrite prepare_unfold, run_bind.
  destruct (load_trace_quiet h self w) as (Q1 & _ & Q3).
  destruct (result (run h (__load_all_documents self) w)) as [e | docs] eqn:L;
    [discriminate |].
  destruct (load_all_return h self w docs L) as (files & Lo & D & P).
  cbv zeta. cbn [trace result].
  pose proof (after_load_quiet h self docs (world (run h (__load_all_documents self) w)))
    as Q.
  revert Q. rewrite after_load_run. cbv zeta.
  destruct (text_splitter self) as [s |]; [| discriminate].
  destruct (h _ (split_documents s docs) _) as [[e | chunks] w1]; [discriminate |].
  destruct (persist_directory self) as [dir |]; [| discriminate].
  destruct (h _ (Chroma_from_documents chunks (embedding self) dir) w1)
    as [[e | db] w2]; [discriminate |].
  destruct (h _ (collection_count db) w2) as [[e | n] w3]; [discriminate |].
  cbn [trace result]. intros Q E. injection E as ->.
  exists files, s, chunks, n.
  unfold loads, chunkings, counts, printed in *.
  rewrite !collect_app, Lo, Q1, Q3, P. cbn.
  rewrite app_nil_r. subst docs.
  repeat split. unfold load_log, store_log, pages_total, len.
  rewrite length_concat, map_map. reflexivity.
Qed.

Lemma returning_run_log_witness :
  exists files s chunks n,
    loads (trace (run Ref.handle
                    (prepare_and_save_vectordb (Ref.recursive_pipeline (PyStr "data")))
                    Ref.disk)) = as_loads files /\
    chunkings (trace (run Ref.handle
                        (prepare_and_save_vectordb (Ref.recursive_pipeline (PyStr "data")))
                        Ref.disk))
      = [(s, List.concat (map snd files), inr chunks)] /\
    counts (trace (run Ref.handle
                     (prepare_and_save_vectordb (Ref.recursive_pipeline (PyStr "data")))
                     Ref.disk)) = [("db/recursive", inr n)] /\
    printed (trace (run Ref.handle
                      (prepare_and_save_vectordb (Ref.recursive_pipeline (PyStr "data")))
                      Ref.disk))
      = (load_log (Ref.recursive_pipeline (PyStr "data")) (len files)
           (Z.of_nat (pages_total files))
           ++ store_log (len chunks) n)%list.
Proof.
  apply (returning_run_log Ref.handle Ref.disk
           (Ref.recursive_pipeline (PyStr "data")) "db/recursive").
  reflexivity.
Defined.

(** X2: a load that fails returns nothing of what it had read.  It ends
    with the exception of the one call that failed, it has printed its
    first line only (no count of documents or pages), and in list mode
    the paths before the failing one were loaded, in order, and the
    paths after it were never opened. *)
Theorem failing_load_stops `{Backend} {W : Type} (h : handler W) (w : W)
    (self : PrepareVectorDB) (x : exn) :
  result (run h (__load_all_documents self) w) = inl x ->
  let tr := trace (run h (__load_all_documents self) w) in
  exists e,
    x = LibraryError e /\
    collect failure tr = [e] /\
    printed tr = [[AStr (load_banner self)]] /\
    (isinstance_list (data_directory self) = true ->
     exists files p rest,
       list_items (data_directory self) = (map fst files ++ p :: rest)%list /\
       loads tr = (as_loads files ++ [(p, inl e)])%list).
Proof.
  intros R. cbv zeta.
  destruct (raise_origin h _ w x (load_all_never_raises self) R)
    as (e & t & ev & -> & T & F & N).
  exists e. split; [reflexivity |].
  split; [rewrite T, collect_app, N; simpl; rewrite F; reflexivity |].
  clear T F N t ev. revert R. unfold load_banner.
  destruct (isinstance_list (data_directory self)) eqn:L.
  - rewrite (load_all_list h self w L). cbv zeta.
    pose proof (load_uploaded_prints h (list_items (data_directory self)) [] 0 w) as P.
    destruct (result (run h (load_uploaded (list_items (data_directory self)) [] 0) w))
      as [y | [docs n]] eqn:R; [| discriminate].
    cbn [result trace]. intros E. injection E as ->.
    split; [unfold printed in *; cbn [collect printed_line]; rewrite P; reflexivity |].
    intros _.
    destruct (load_uploaded_raise h _ _ _ _ _ R) as (files & p & rest & e' & E & Pa & Lo).
    injection E as <-. exists files, p, rest. split; [exact Pa |].
    unfold loads in *. cbn [collect loading]. exact Lo.
  - rewrite (load_all_listed h self w L).
    destruct (h _ (os_listdir (data_directory self)) w) as [[e0 | names] w1].
    + intros _. split; [reflexivity | discriminate].
    + cbv zeta.
      pose proof (load_listed_prints h (data_directory self) names [] 0 w1) as P.
      destruct (result (run h (load_listed (data_directory self) names [] 0) w1))
        as [y | [docs n]]; [| discriminate].
      cbn [result trace]. intros _.
      split; [| discriminate].
      unfold printed in *. cbn [collect printed_line]. rewrite P. reflexivity.
Qed.

Lemma failing_load_stops_witness :
  exists e : Ref.error,
    @LibraryError Ref.backend (Ref.DocumentLoadError "mixed/notes.txt")
      = @LibraryError Ref.backend e /\
    collect failure
      (trace (run Ref.handle
                (__load_all_documents (Ref.recursive_pipeline Ref.mixed_upload))
                Ref.disk)) = [e] /\
    printed
      (trace (run Ref.handle
                (__load_all_documents (Ref.recursive_pipeline Ref.mixed_upload))
                Ref.disk))
      = [[AStr (load_banner (Ref.recursive_pipeline Ref.mixed_upload))]] /\
    (isinstance_list (data_directory (Ref.recursive_pipeline Ref.mixed_upload)) = true ->
     exists files p rest,
       list_items (data_directory (Ref.recursive_pipeline Ref.mixed_upload))
         = (map fst files ++ p :: rest)%list /\
       loads
         (trace (run Ref.handle
                   (__load_all_documents (Ref.recursive_pipeline Ref.mixed_upload))
                   Ref.disk))
         = (as_loads files ++ [(p, inl e)])%list).
Proof.
  apply (failing_load_stops Ref.handle Ref.disk
           (Ref.recursive_pipeline Ref.mixed_upload)
           (@LibraryError Ref.backend (Ref.DocumentLoadError "mixed/notes.txt"))).
  reflexivity.
Defined.

(** X3: the stages never interleave.  The trace of
    [prepare_and_save_vectordb] is the trace of the load, then the calls
    of the chunk stage, then those of the store stage; no object is
    constructed on the way.  A load that fails is followed by nothing,
    and the store stage starts only once the splitter has returned the
    chunks of the documents loaded. *)
Theorem stages_in_order `{Backend} {W : Type} (h : handler W) (w : W)
    (self : PrepareVectorDB) :
  exists tc ts,
    trace (run h (prepare_and_save_vectordb self) w)
      = (trace (run h (__load_all_documents self) w) ++ tc ++ ts)%list /\
    stages_in is_load (trace (run h (__load_all_documents self) w)) /\
    stages_in is_chunk tc /\
    stages_in is_store ts /\
    (forall x, result (run h (__load_all_documents self) w) = inl x ->
               tc = [] /\ ts = []) /\
    (ts <> [] ->
     exists s docs chunks,
       result (run h (__load_all_documents self) w) = inr docs /\
       chunkings tc = [(s, docs, inr chunks)]).
Proof.
  pose proof (within_run h is_load _ w (load_all_within self)) as SL.
  rewrite prepare_unfold, run_bind.
  destruct (result (run h (__load_all_documents self) w)) as [x | docs] eqn:L.
  - exists [], []. cbn [trace]. rewrite app_nil_r.
    split; [reflexivity | split; [exact SL |]].
    split; [constructor | split; [constructor |]].
    split; [intros; split; reflexivity | intros N; exfalso; apply N; reflexivity].
  - cbv zeta. cbn [trace]. rewrite after_load_run. cbv zeta.
    destruct (text_splitter self) as [s |].
    2:{ exists [Printed [AStr "Chunking documents..."]], [].
        split; [reflexivity | split; [exact SL |]].
        split; [repeat constructor | split; [constructor |]].
        split; [discriminate | intros N; exfalso; apply N; reflexivity]. }
    destruct (h _ (split_documents s docs) _) as [[e | chunks] w1].
    { exists [Printed [AStr "Chunking documents..."];
              Called (split_documents s docs) (inl e)], [].
      split; [reflexivity | split; [exact SL |]].
      split; [repeat constructor | split; [constructor |]].
      split; [discriminate | intros N; exfalso; apply N; reflexivity]. }
    exists [Printed [AStr "Chunking documents..."];
            Called (split_documents s docs) (inr chunks);
            Printed [AStr "Number of chunks:"; AInt (len chunks);
                     AStr (newline ++ newline)]].
    destruct (persist_directory self) as [dir |];
      [destruct (h _ (Chroma_from_documents chunks (embedding self) dir) w1)
         as [[e | db] w2];
       [| destruct (h _ (collection_count db) w2) as [[e | n] w3]] |];
      cbn [trace];
      eexists;
      (split; [reflexivity | split; [exact SL |]]);
      (split; [repeat constructor | split; [repeat constructor |]]);
      (split; [discriminate | intros _; exists s, docs, chunks; split; reflexivity]).
Qed.

Section FurtherPipeline.
Context `{Backend} {W : Type} (h : handler W).

Lemma prepare_never_raises self s dir :
  text_splitter self = Some s ->
  persist_directory self = Some dir ->
  never_raises (prepare_and_save_vectordb self).
Proof.
  intros TS PD. rewrite prepare_unfold.
  apply never_raises_bind; [apply load_all_never_raises |].
  intros docs. apply (after_load_never_raises self docs s dir TS PD).
Qed.

(** What a run that returns loaded, chunked and wrote. *)
Lemma prepare_return self w dir v :
  persist_directory self = Some dir ->
  result (run h (prepare_and_save_vectordb self) w) = inr v ->
  exists files s chunks,
    loads (trace (run h (prepare_and_save_vectordb self) w)) = as_loads files /\
    chunkings (trace (run h (prepare_and_save_vectordb self) w))
      = [(s, List.concat (map snd files), inr chunks)] /\
    index_writes (trace (run h (prepare_and_save_vectordb self) w))
      = [(chunks, embedding self, dir, inr v)].
Proof.
  intros PD. rewrite prepare_unfold, run_bind.
  destruct (load_trace_quiet h self w) as (Q1 & Q2 & _).
  destruct (result (run h (__load_all_documents self) w)) as [e | docs] eqn:L;
    [discriminate |].
  destruct (load_all_return h self w docs L) as (files & Lo & D & _).
  cbv zeta. cbn [trace result].
  pose proof (after_load_quiet h self docs (world (run h (__load_all_documents self) w)))
    as Q.
  revert Q. rewrite after_load_run, PD. cbv zeta.
  destruct (text_splitter self) as [s |]; [| discriminate].
  destruct (h _ (split_documents s docs) _) as [[e | chunks] w1]; [discriminate |].
  destruct (h _ (Chroma_from_documents chunks (embedding self) dir) w1)
    as [[e | db] w2]; [discriminate |].
  destruct (h _ (collection_count db) w2) as [[e | n] w3]; [discriminate |].
  cbn [trace result]. intros Q E. injection E as ->.
  exists files, s, chunks.
  unfold loads, chunkings, index_writes in *.
  rewrite !collect_app, Lo, Q1, Q2. cbn. rewrite app_nil_r. subst docs.
  repeat split.
Qed.

(** The splitter asked is the one of the object. *)
Lemma after_load_chunkings self docs w s d r :
  In (s, d, r) (chunkings (trace (run h (after_load self docs) w))) ->
  text_splitter self = Some s.
Proof.
  rewrite after_load_run. cbv zeta.
  destruct (text_splitter self) as [s0 |]; [| intros []].
  assert (one : forall r0, In (s, d, r) [(s0, docs, r0)] -> Some s0 = Some s).
  { intros r0 [E | []]. injection E as -> _ _. reflexivity. }
  destruct (h _ (split_documents s0 docs) w) as [[e | chunks] w1]; [apply one |].
  destruct (persist_directory self) as [dir |]; [| apply one].
  destruct (h _ (Chroma_from_documents chunks (embedding self) dir) w1)
    as [[e | db] w2]; [apply one |].
  destruct (h _ (collection_count db) w2) as [[e | n] w3]; apply one.
Qed.

Lemma stages_in_weaken (S S' : stage -> bool) tr :
  (forall st, S st = true -> S' st = true) -> stages_in S tr -> stages_in S' tr.
Proof.
  intros HS. apply Forall_impl. intros ev.
  destruct (ev_stage ev); [apply HS | exact id].
Qed.

End FurtherPipeline.

(** X4: the exceptions of the pipeline.  On an object [__init__]
    returned, [prepare_and_save_vectordb] ends with an exception in two
    ways only: the last library call was answered with it, no call
    having failed before; or the policy was neither [recursive] nor
    [token], every document was loaded, and reading [self.text_splitter]
    fails, before anything is written.  A missing [persist_directory]
    is never what the run fails on. *)
Theorem pipeline_exceptions `{Backend} {W : Type} (h : handler W) (w0 w : W)
    (dd : pyval) (tdir rdir eng : string) (cs co tcs tco : Z) (policy : string)
    (self : PrepareVectorDB) (x : exn) :
  result (run h (__init__ dd tdir rdir eng cs co tcs tco policy) w0) = inr self ->
  result (run h (prepare_and_save_vectordb self) w) = inl x ->
  (exists e t ev,
      x = LibraryError e /\
      trace (run h (prepare_and_save_vectordb self) w) = (t ++ [ev])%list /\
      failure ev = Some e /\
      collect failure t = []) \/
  (x = AttributeError "text_splitter" /\
   policy <> "recursive" /\
   policy <> "token" /\
   (exists docs, result (run h (__load_all_documents self) w) = inr docs) /\
   index_writes (trace (run h (prepare_and_save_vectordb self) w)) = []).
Proof.
  intros I R.
  destruct (init_return h _ _ _ _ _ _ _ _ _ _ _ I) as (_ & _ & P & [N1 N2]).
  destruct (text_splitter self) as [s |] eqn:TS.
  - left. destruct (persist_directory self) as [dir |] eqn:PD.
    + apply (raise_origin h _ w x (prepare_never_raises self s dir TS PD) R).
    + specialize (N2 eq_refl). discriminate.
  - rewrite (N1 eq_refl) in P.
    revert R. rewrite prepare_unfold, run_bind.
    destruct (load_trace_quiet h self w) as (_ & Q & _).
    destruct (result (run h (__load_all_documents self) w)) as [y | docs] eqn:L.
    + cbn [result trace]. intros E. injection E as ->. left.
      apply (raise_origin h _ w x (load_all_never_raises self) L).
    + cbv zeta. cbn [result trace]. rewrite after_load_run, TS.
      cbn [result trace]. intros E. injection E as <-. right.
      split; [reflexivity |].
      destruct (String.eqb policy "recursive") eqn:E1; [discriminate |].
      destruct (String.eqb policy "token") eqn:E2; [discriminate |].
      apply String.eqb_neq in E1. apply String.eqb_neq in E2.
      split; [exact E1 | split; [exact E2 |]].
      split; [exists docs; reflexivity |].
      unfold index_writes in *. rewrite collect_app, Q. reflexivity.
Qed.

Lemma pipeline_exceptions_witness :
  (exists (e : Ref.error) t ev,
      @LibraryError Ref.backend (Ref.DocumentLoadError "mixed/notes.txt")
        = LibraryError e /\
      trace Ref.mixed_run = (t ++ [ev])%list /\
      failure ev = Some e /\
      collect failure t = []) \/
  (@LibraryError Ref.backend (Ref.DocumentLoadError "mixed/notes.txt")
     = AttributeError "text_splitter" /\
   "recursive" <> "recursive" /\
   "recursive" <> "token" /\
   (exists docs,
       result (run Ref.handle
                 (__load_all_documents (Ref.recursive_pipeline (PyStr "mixed")))
                 Ref.disk) = inr docs) /\
   index_writes (trace Ref.mixed_run) = []).
Proof.
  apply (pipeline_exceptions Ref.handle Ref.disk Ref.disk
           (PyStr "mixed") "db/token" "db/recursive" "text-embedding-ada-002"
           8 2 4 1 "recursive" (Ref.recursive_pipeline (PyStr "mixed"))
           (@LibraryError Ref.backend (Ref.DocumentLoadError "mixed/notes.txt"))).
  - reflexivity.
  - reflexivity.
Defined.

(** X5: nothing is remembered between runs.  Two runs of
    [prepare_and_save_vectordb] on the same object that both return load
    the documents twice, chunk them twice and write twice to the same
    persistence directory with the same embedding client: the second run
    neither looks for what the first one stored nor skips any work. *)
Theorem rerun_writes_again `{Backend} {W : Type} (h : handler W) (w : W)
    (self : PrepareVectorDB) (dir : string) (v : Chroma) :
  persist_directory self = Some dir ->
  result (run h (prepare_twice self) w) = inr v ->
  let tr := trace (run h (prepare_twice self) w) in
  exists files1 s1 chunks1 v1 files2 s2 chunks2,
    loads tr = (as_loads files1 ++ as_loads files2)%list /\
    chunkings tr = [(s1, List.concat (map snd files1), inr chunks1);
                    (s2, List.concat (map snd files2), inr chunks2)] /\
    index_writes tr = [(chunks1, embedding self, dir, inr v1);
                       (chunks2, embedding self, dir, inr v)].
Proof.
  intros PD. unfold prepare_twice. cbv zeta. rewrite run_bind.
  destruct (result (run h (prepare_and_save_vectordb self) w)) as [e | v1] eqn:R1;
    [discriminate |].
  cbv zeta. cbn [result trace]. intros R2.
  destruct (prepare_return h self w dir v1 PD R1)
    as (files1 & s1 & chunks1 & L1 & C1 & I1).
  destruct (prepare_return h self _ dir v PD R2)
    as (files2 & s2 & chunks2 & L2 & C2 & I2).
  exists files1, s1, chunks1, v1, files2, s2, chunks2.
  unfold loads, chunkings, index_writes in *.
  rewrite !collect_app, L1, L2, C1, C2, I1, I2. repeat split.
Qed.

Lemma rerun_writes_again_witness :
  exists files1 s1 chunks1 v1 files2 s2 chunks2,
    loads (trace (run Ref.handle
                    (prepare_twice (Ref.recursive_pipeline (PyStr "data"))) Ref.disk))
      = (as_loads files1 ++ as_loads files2)%list /\
    chunkings (trace (run Ref.handle
                        (prepare_twice (Ref.recursive_pipeline (PyStr "data")))
                        Ref.disk))
      = [(s1, List.concat (map snd files1), inr chunks1);
         (s2, List.concat (map snd files2), inr chunks2)] /\
    index_writes (trace (run Ref.handle
                           (prepare_twice (Ref.recursive_pipeline (PyStr "data")))
                           Ref.disk))
      = [(chunks1, "text-embedding-ada-002", "db/recursive", inr v1);
         (chunks2, "text-embedding-ada-002", "db/recursive", inr "db/recursive")].
Proof.
  apply (rerun_writes_again Ref.handle Ref.disk
           (Ref.recursive_pipeline (PyStr "data")) "db/recursive" "db/recursive").
  - reflexivity.
  - reflexivity.
Defined.

(** X6: the objects built at construction are the ones used.  The
    embedding client of the object is the one [OpenAIEmbeddings]
    returned for [embedding_model_engine], its splitter the one the
    constructor of the selected policy returned for that policy's size
    and overlap; a run constructs nothing again, asks that splitter and
    hands that embedding client to the store. *)
Theorem constructed_objects_are_used `{Backend} {W : Type} (h : handler W) (w0 w : W)
    (dd : pyval) (tdir rdir eng : string) (cs co tcs tco : Z) (policy : string)
    (self : PrepareVectorDB) :
  result (run h (__init__ dd tdir rdir eng cs co tcs tco policy) w0) = inr self ->
  let built := trace (run h (__init__ dd tdir rdir eng cs co tcs tco policy) w0) in
  let tr := trace (run h (prepare_and_save_vectordb self) w) in
  collect embeddings_made built = [(eng, embedding self)] /\
  collect splitter_made built
    = match text_splitter self with
      | Some s =>
          [(policy,
            if String.eqb policy "recursive" then cs else tcs,
            if String.eqb policy "recursive" then co else tco,
            s)]
      | None => []
      end /\
  stages_in (fun st => negb (is_construct st)) tr /\
  (forall s docs r, In (s, docs, r) (chunkings tr) -> text_splitter self = Some s) /\
  (forall d e dir r, In (d, e, dir, r) (index_writes tr) -> e = embedding self).
Proof.
  intros I. cbv zeta.
  split; [| split].
  - revert I. run_init h; intros E; try discriminate; injection E as <-; reflexivity.
  - revert I. run_init h; intros E; try discriminate; injection E as <-; simpl;
      try reflexivity.
    all: repeat match goal with
                | E : String.eqb _ _ = true |- _ => apply String.eqb_eq in E; subst
                end; reflexivity.
  - clear I. rewrite prepare_unfold, run_bind.
    pose proof (within_run h is_load _ w (load_all_within self)) as SL.
    destruct (load_trace_quiet h self w) as (Q1 & Q2 & _).
    assert (SL' : stages_in (fun st => negb (is_construct st))
                    (trace (run h (__load_all_documents self) w))).
    { apply (stages_in_weaken is_load); [| exact SL].
      intros [] E; (reflexivity || discriminate). }
    destruct (result (run h (__load_all_documents self) w)) as [e | docs].
    + cbn [trace]. split; [exact SL' |].
      rewrite Q1, Q2. split; [intros ? ? ? [] | intros ? ? ? ? []].
    + cbv zeta. cbn [trace].
      set (w1 := world (run h (__load_all_documents self) w)).
      split; [| split].
      * apply Forall_app. split; [exact SL' |].
        apply (stages_in_weaken after_loading);
          [| apply within_run, after_load_within].
        intros [] E; (reflexivity || discriminate).
      * intros s d r In1. unfold chunkings in *. rewrite collect_app, Q1 in In1.
        apply (after_load_chunkings h self docs w1 s d r In1).
      * intros d e dir r In1. unfold index_writes in *. rewrite collect_app, Q2 in In1.
        destruct (after_load_writes h self docs w1) as (_ & _ & A).
        apply (A d e dir r In1).
Qed.

Lemma constructed_objects_witness :
  collect embeddings_made
    (trace (run Ref.handle (Ref.pipeline (PyStr "data") "token") Ref.disk))
    = [("text-embedding-ada-002", "text-embedding-ada-002")] /\
  collect splitter_made
    (trace (run Ref.handle (Ref.pipeline (PyStr "data") "token") Ref.disk))
    = [("token", 4, 1, Ref.TokSplitter 4 1)] /\
  stages_in (fun st => negb (is_construct st))
    (trace (run Ref.handle
              (prepare_and_save_vectordb (Ref.token_pipeline (PyStr "data")))
              Ref.disk)) /\
  (forall s docs r,
      In (s, docs, r)
         (chunkings
            (trace (run Ref.handle
                      (prepare_and_save_vectordb (Ref.token_pipeline (PyStr "data")))
                      Ref.disk))) ->
      Some (Ref.TokSplitter 4 1) = Some s) /\
  (forall d e dir r,
      In (d, e, dir, r)
         (index_writes
            (trace (run Ref.handle
                      (prepare_and_save_vectordb (Ref.token_pipeline (PyStr "data")))
                      Ref.disk))) ->
      e = "text-embedding-ada-002").
Proof.
  apply (constructed_objects_are_used Ref.handle Ref.disk Ref.disk
           (PyStr "data") "db/token" "db/recursive" "text-embedding-ada-002"
           8 2 4 1 "token" (Ref.token_pipeline (PyStr "data"))).
  reflexivity.
Defined.

(** X7: the order of construction.  [__init__] prints the splitter type
    first, whatever it is; it then calls at most one splitter
    constructor and after it, at most once, the constructor of the
    embedding client, for [embedding_model_engine].  When the splitter
    constructor raises, the embedding client is never built; when the
    policy is not recognised, no splitter constructor is called and the
    embedding client is built all the same. *)
Theorem construction_order `{Backend} {W : Type} (h : handler W) (w : W)
    (dd : pyval) (tdir rdir eng : string) (cs co tcs tco : Z) (policy : string) :
  exists ts te,
    trace (run h (__init__ dd tdir rdir eng cs co tcs tco policy) w)
      = (Printed [AStr ("Splitter type: " ++ policy)] :: ts ++ te)%list /\
    (List.length ts <= 1)%nat /\
    List.length (collect splitter_built ts) = List.length ts /\
    (collect failure ts = [] -> collect embeddings_built te = [eng]) /\
    (collect failure ts <> [] -> te = []) /\
    (List.length te <= 1)%nat /\
    (ts = [] <-> policy <> "recursive" /\ policy <> "token").
Proof.
  unfold __init__; simpl.
  destruct (String.eqb policy "recursive") eqn:R; simpl;
    [| destruct (String.eqb policy "token") eqn:T; simpl].
  - apply String.eqb_eq in R.
    destruct (h _ (RecursiveCharacterTextSplitter cs co _) w) as [[e | s] w1]; simpl.
    + exists [Called (RecursiveCharacterTextSplitter cs co
                        [newline ++ newline; newline; " "; EmptyString]) (inl e)], [].
      simpl. repeat split; try lia; try discriminate; try congruence; tauto.
    + destruct (h _ (OpenAIEmbeddings eng) w1) as [[e | emb] w2]; simpl;
        eexists [Called _ (inr s)], [Called _ _];
        simpl; repeat split; try lia; try discriminate; try congruence; tauto.
  - apply String.eqb_eq in T.
    destruct (h _ (TokenTextSplitter tcs tco) w) as [[e | s] w1]; simpl.
    + exists [Called (TokenTextSplitter tcs tco) (inl e)], [].
      simpl. repeat split; try lia; try discriminate; try congruence; tauto.
    + destruct (h _ (OpenAIEmbeddings eng) w1) as [[e | emb] w2]; simpl;
        eexists [Called _ (inr s)], [Called _ _];
        simpl; repeat split; try lia; try discriminate; try congruence; tauto.
  - apply String.eqb_neq in R. apply String.eqb_neq in T.
    destruct (h _ (OpenAIEmbeddings eng) w) as [[e | emb] w1]; simpl;
      eexists [], [Called _ _];
      simpl; repeat split; try lia; try discriminate; try congruence; tauto.
Qed.
